(** * The chat facade of the FastAPI + LangGraph starter

    A shallow embedding of [app/api/routes.py], [app/agent/checkpointer.py]
    and the start-up half of [app/main.py], and the properties of the two
    chat handlers: session resolution, tool-call aggregation, the error
    paths of the batch handler, and the forwarding discipline of the
    streaming handler.

    Python objects are modelled as follows.
    - [dict] with string keys: [gmap string _];
    - [list]: [list];
    - [Optional[T]] and a missing attribute: [option];
    - exceptions: the inductive [exn], with [str_exn] for [str(e)];
    - module-level and process-level mutable state, the calls made to the
      collaborators and the frames yielded to the client: the record
      [World], threaded by the monad [M]. *)

From Stdlib Require Import ZArith Lia Ascii String.
From stdpp Require Import gmap strings list fin_maps pretty.

Set Warnings "-register-all".
Set Default Proof Using "Type".

Local Open Scope Z_scope.

(** ** Python strings *)

Module Py.

(** Truth value of a [str]: only the empty string is falsy. *)
Definition str_truthy (s : string) : bool :=
  match s with
  | EmptyString => false
  | String _ _ => true
  end.

(** [s.replace(old, new)] for a non-empty [old]: occurrences are found
    left to right and do not overlap.  [skip] counts the characters of
    an occurrence just replaced that are still to be dropped. *)
Fixpoint replace_from (old new : string) (skip : nat) (s : string) : string :=
  match s with
  | EmptyString => EmptyString
  | String c s' =>
      match skip with
      | S k => replace_from old new k s'
      | O =>
          if String.prefix old s
          then new +:+ replace_from old new (Nat.pred (String.length old)) s'
          else String c (replace_from old new O s')
      end
  end.

Definition replace (s old new : string) : string := replace_from old new O s.

(** ['%x'] of one hexadecimal digit. *)
Definition hex_digit (d : Z) : Ascii.ascii :=
  match d with
  | 0 => "0" | 1 => "1" | 2 => "2" | 3 => "3"
  | 4 => "4" | 5 => "5" | 6 => "6" | 7 => "7"
  | 8 => "8" | 9 => "9" | 10 => "a" | 11 => "b"
  | 12 => "c" | 13 => "d" | 14 => "e" | _ => "f"
  end%char.

(** The [width] low hexadecimal digits of [z], most significant first.
    For [0 <= z < 16 ^ width] this is ['%0<width>x' % z]. *)
Fixpoint hex_fixed (width : nat) (z : Z) : string :=
  match width with
  | O => EmptyString
  | S w => hex_fixed w (Z.shiftr z 4) +:+ String (hex_digit (Z.land z 15)) EmptyString
  end.

(** [c in s] for a one-character [c]. *)
Fixpoint char_in (c : Ascii.ascii) (s : string) : bool :=
  match s with
  | EmptyString => false
  | String c' s' => if Ascii.eqb c' c then true else char_in c s'
  end.

(** [s.split(sep)] for a one-character [sep]: the pieces between the
    separators, empty pieces included; a string without the separator is
    its own single piece. *)
Fixpoint split_on (sep : Ascii.ascii) (s : string) : list string :=
  match s with
  | EmptyString => [EmptyString]
  | String c s' =>
      if Ascii.eqb c sep
      then EmptyString :: split_on sep s'
      else
        match split_on sep s' with
        | [] => [String c EmptyString]
        | piece :: pieces => String c piece :: pieces
        end
  end.

(** [c.lower()] on the ASCII range: [A]..[Z] go to [a]..[z], every other
    byte is left alone.  No character outside ASCII lowers to an ASCII
    letter of ["true"], so this decides [s.lower() == "true"] as Python
    does. *)
Definition lower_char (c : Ascii.ascii) : Ascii.ascii :=
  let n := nat_of_ascii c in
  if (65 <=? n)%nat && (n <=? 90)%nat then ascii_of_nat (n + 32) else c.

Fixpoint lower (s : string) : string :=
  match s with
  | EmptyString => EmptyString
  | String c s' => String (lower_char c) (lower s')
  end.

End Py.

(** ** [uuid.uuid4] and [str(UUID)] (Python standard library) *)

Module uuid.

(** [UUID(bytes=os.urandom(16), version=4).int]: the sixteen random
    bytes read as a big-endian integer [r], with the RFC 4122 variant
    and the version number written over it. *)
Definition uuid4 (r : Z) : Z :=
  let int := r mod 2 ^ 128 in
  let int := Z.land int (Z.lnot (Z.shiftl 0xc000 48)) in
  let int := Z.lor int (Z.shiftl 0x8000 48) in
  let int := Z.land int (Z.lnot (Z.shiftl 0xf000 64)) in
  let int := Z.lor int (Z.shiftl 4 76) in
  int.

(** [UUID.__str__]: [hex = '%032x' % self.int], then
    [hex[:8]-hex[8:12]-hex[12:16]-hex[16:20]-hex[20:]]. *)
Definition str (int : Z) : string :=
  let hex := Py.hex_fixed 32 int in
  substring 0 8 hex +:+ "-" +:+ substring 8 4 hex +:+ "-" +:+
  substring 12 4 hex +:+ "-" +:+ substring 16 4 hex +:+ "-" +:+
  substring 20 12 hex.

End uuid.

(** ** Exceptions *)

(** The exceptions that can cross the handlers.  [HTTPException],
    [AttributeError] and [IndexError] are raised by the handlers' own
    lines; [Exception] stands for any other subclass of Python's
    [Exception] raised by a collaborator and carries its [str()];
    [BaseException] stands for the exceptions outside [Exception]
    ([asyncio.CancelledError], [KeyboardInterrupt], ...), which
    [except Exception] lets through. *)
Inductive exn : Type :=
| HTTPException (status_code : Z) (detail : string)
| AttributeError (msg : string)
| IndexError (msg : string)
| Exception (msg : string)
| BaseException (msg : string).

(** [isinstance(e, Exception)]. *)
Definition is_Exception (e : exn) : bool :=
  match e with
  | BaseException _ => false
  | _ => true
  end.

(** [str(e)].  Starlette's [HTTPException.__str__] returns
    [f"{self.status_code}: {self.detail}"]. *)
Definition str_exn (e : exn) : string :=
  match e with
  | HTTPException status_code detail => pretty status_code +:+ ": " +:+ detail
  | AttributeError msg => msg
  | IndexError msg => msg
  | Exception msg => msg
  | BaseException msg => msg
  end.

Inductive outcome (A : Type) : Type :=
| Return (a : A)
| Raise (e : exn).
Arguments Return {A} a.
Arguments Raise {A} e.

(** ** Messages, tool calls and graph state *)

(** JSON-like values held in a tool call dictionary. *)
Inductive json : Type :=
| JNull
| JBool (b : bool)
| JNum (n : Z)
| JStr (s : string)
| JList (l : list json)
| JObj (d : gmap string json).

(** [d.get(key)]: the value under [key], or [None]. *)
Definition dict_get (d : gmap string json) (key : string) : json :=
  default JNull (d !! key).

Module Message.

Inductive kind : Type := Human | AI | Tool | System.

(** A LangChain message.  [tool_calls = None] is a message class
    without the attribute ([hasattr(msg, "tool_calls")] is false). *)
Record t : Type := Build {
  type : kind;
  content : string;
  tool_calls : option (list (gmap string json));
}.

End Message.

(** [HumanMessage(content=c)] *)
Definition HumanMessage (c : string) : Message.t :=
  {| Message.type := Message.Human;
     Message.content := c;
     Message.tool_calls := None |}.

(** A value of the graph state dictionary. *)
Inductive state_value : Type :=
| VMessages (l : list Message.t)
| VStr (s : string).

Module ChatRequest.

(** Modelled from the spec: [app/api/schemas.py] is not among the
    sources; section 6 gives the request body as
    [{message: string (required), session_id: string (optional)}]. *)
Record t : Type := Build {
  message : string;
  session_id : option string;
}.

End ChatRequest.

Module ChatResponse.

(** Modelled from the spec: [app/api/schemas.py] is not among the
    sources; section 6 gives the response as
    [{response: string, session_id: string,
      tool_calls: [{name, args}] | absent}]. *)
Record t : Type := Build {
  response : string;
  session_id : string;
  tool_calls : option (list (gmap string json));
}.

End ChatResponse.

(** [langgraph.checkpoint.base.BaseCheckpointSaver]: the only saver the
    sources construct is the PostgreSQL one of [app/main.py]. *)
Inductive BaseCheckpointSaver : Type :=
| AsyncPostgresSaver (conn_string : string).

(** ** app/core/tracing.py *)

Module tracing.

(** The fields of [app.config.settings] that [setup_langsmith] reads.
    [app/config.py] is not among the sources; the key is optional, and
    both [None] and [""] count as no key. *)
Record Settings : Type := {
  langsmith_enabled : bool;
  langsmith_api_key : option string;
  langsmith_project : string;
}.

(** What the module acts on: [os.environ] and the lines printed. *)
Record Process : Type := {
  environ : gmap string string;
  stdout : list string;
}.

(** [os.environ[key] = value] *)
Definition setenv (key value : string) (p : Process) : Process :=
  {| environ := <[key := value]> (environ p); stdout := stdout p |}.

(** [print(line)] *)
Definition print (line : string) (p : Process) : Process :=
  {| environ := environ p; stdout := stdout p ++ [line] |}.

(** The [else] branch of [setup_langsmith] (lines 26-30). *)
Definition tracing_off (settings : Settings) (p : Process) : Process :=
  let p := setenv "LANGCHAIN_TRACING_V2" "false" p in
  if negb (langsmith_enabled settings)
  then print "✓ LangSmith tracing disabled (LANGSMITH_ENABLED=false)" p
  else
    if negb (Py.str_truthy (default ""%string (langsmith_api_key settings)))
    then print "✓ LangSmith tracing disabled (no API key)" p
    else p.

(** [setup_langsmith] (lines 9-30) *)
Definition setup_langsmith (settings : Settings) (p : Process) : Process :=
  match langsmith_api_key settings with
  | Some api_key =>
      if langsmith_enabled settings && Py.str_truthy api_key
      then
        let p := setenv "LANGCHAIN_TRACING_V2" "true" p in
        let p := setenv "LANGCHAIN_API_KEY" api_key p in
        let p := setenv "LANGCHAIN_PROJECT" (langsmith_project settings) p in
        print ("✓ LangSmith tracing enabled (project: "
               +:+ langsmith_project settings +:+ ")") p
      else tracing_off settings p
  | None => tracing_off settings p
  end.

(** [is_langsmith_enabled] (lines 33-40) *)
Definition is_langsmith_enabled (p : Process) : bool :=
  String.eqb
    (Py.lower (default "false"%string (environ p !! "LANGCHAIN_TRACING_V2")))
    "true".

End tracing.

(** ** app/main.py: the start-up banner *)

(** The text printed after ["Database: "] (line 46):
    [checkpointer_url.split('@')[1] if '@' in checkpointer_url
     else 'configured']. *)
Definition database_label (checkpointer_url : string) : outcome string :=
  if Py.char_in "@" checkpointer_url
  then
    match Py.split_on "@" checkpointer_url !! 1%nat with
    | Some piece => Return piece
    | None => Raise (IndexError "list index out of range")
    end
  else Return "configured"%string.

(** ** Event sources *)

(** What an asynchronous generator does when it is iterated to the end:
    it yields a finite run of events and then either stops
    ([StopAsyncIteration]) or raises. *)
Inductive event_source : Type :=
| Yield (event : string) (rest : event_source)
| StopAsyncIteration
| Raises (e : exn).

(** The events an event source yields before it ends, and how it ends
    ([None]: normally). *)
Fixpoint events_of (src : event_source) : list string :=
  match src with
  | Yield event rest => event :: events_of rest
  | StopAsyncIteration => []
  | Raises _ => []
  end.

Fixpoint failure_of (src : event_source) : option exn :=
  match src with
  | Yield _ rest => failure_of rest
  | StopAsyncIteration => None
  | Raises e => Some e
  end.

(** ** Collaborators for the worked examples *)

Module Scenario.

(** A graph factory that always succeeds; the graph itself is [tt]. *)
Definition graph_ok (_ : option BaseCheckpointSaver) : outcome unit := Return tt.

(** A graph factory that fails. *)
Definition graph_down (_ : option BaseCheckpointSaver) : outcome unit :=
  Raise (Exception "graph unavailable").

(** A graph that answers every invocation with [result]. *)
Definition answers (result : gmap string state_value)
    (_ : unit) (_ : gmap string state_value) (_ : gmap string (gmap string string))
  : outcome (gmap string state_value) :=
  Return result.

Definition tool (name : string) : gmap string json :=
  {[ "name" := JStr name; "args" := JObj ∅; "id" := JStr ("call_" +:+ name) ]}.

(** Three messages: the question, a message with the tool call [C],
    and the final message with the tool calls [A] and [B]. *)
Definition with_tools : list Message.t :=
  [ HumanMessage "what time is it?";
    {| Message.type := Message.AI; Message.content := "";
       Message.tool_calls := Some [tool "C"] |};
    {| Message.type := Message.AI; Message.content := "It is noon.";
       Message.tool_calls := Some [tool "A"; tool "B"] |} ].

(** Two messages without any tool call. *)
Definition without_tools : list Message.t :=
  [ HumanMessage "hello";
    {| Message.type := Message.AI; Message.content := "Hello!";
       Message.tool_calls := Some [] |} ].

Definition result_of (messages : list Message.t) : gmap string state_value :=
  {[ "messages" := VMessages messages ]}.

(** An event source with three events, and one that fails after the
    first. *)
Definition three_events
    (_ : unit) (_ : gmap string state_value) (_ : gmap string (gmap string string))
  : event_source :=
  Yield "e1" (Yield "e2" (Yield "e3" StopAsyncIteration)).

Definition fails_after_one
    (_ : unit) (_ : gmap string state_value) (_ : gmap string (gmap string string))
  : event_source :=
  Yield "e1" (Raises (Exception "boom")).

(** The random source: the [k]-th draw is [k]. *)
Definition urandom (k : nat) : Z := Z.of_nat k.

(** PostgreSQL is reachable. *)
Definition postgres_up (_ : string) : outcome unit := Return tt.

Definition first_uuid : string := "00000000-0000-4000-8000-000000000000".

(** A graph whose invocation raises [e]. *)
Definition raises (e : exn)
    (_ : unit) (_ : gmap string state_value) (_ : gmap string (gmap string string))
  : outcome (gmap string state_value) :=
  Raise e.

(** An event source cancelled after its first event. *)
Definition cancelled_after_one
    (_ : unit) (_ : gmap string state_value) (_ : gmap string (gmap string string))
  : event_source :=
  Yield "e1" (Raises (BaseException "cancelled")).

(** PostgreSQL is not reachable. *)
Definition postgres_down (_ : string) : outcome unit :=
  Raise (Exception "connection refused").

(** Settings with tracing on, and the same without a key. *)
Definition tracing_on : tracing.Settings :=
  {| tracing.langsmith_enabled := true;
     tracing.langsmith_api_key := Some "lsv2_key"%string;
     tracing.langsmith_project := "starter" |}.

Definition tracing_keyless : tracing.Settings :=
  {| tracing.langsmith_enabled := true;
     tracing.langsmith_api_key := None;
     tracing.langsmith_project := "starter" |}.

(** A process that already exports a key and has tracing on. *)
Definition exported : tracing.Process :=
  {| tracing.environ := {[ "LANGCHAIN_TRACING_V2" := "TRUE"%string;
                           "LANGCHAIN_API_KEY" := "old_key"%string;
                           "PATH" := "/usr/bin"%string ]};
     tracing.stdout := [] |}.

End Scenario.

(** ** The handlers *)

Section Routes.

(** The collaborators, none of which is among the sources.
    - [Graph]: the compiled agent graph, a black box;
    - [create_agent_graph] ([app/agent/graph.py]);
    - [ainvoke]: the batch operation of the graph;
    - [stream_agent_response] ([app/api/streaming.py]);
    - [os_urandom k]: the [k]-th draw of sixteen random bytes, as an
      integer;
    - [database_url]: [settings.database_url] ([app/config.py]);
    - [postgres_setup]: opening the PostgreSQL saver on a connection
      string and running its [setup()]. *)
Variable Graph : Type.
Variable create_agent_graph : option BaseCheckpointSaver -> outcome Graph.
Variable ainvoke :
  Graph -> gmap string state_value -> gmap string (gmap string string) ->
  outcome (gmap string state_value).
Variable stream_agent_response :
  Graph -> gmap string state_value -> gmap string (gmap string string) ->
  event_source.
Variable os_urandom : nat -> Z.
Variable database_url : string.
Variable postgres_setup : string -> outcome unit.

(** A call made to the agent graph layer. *)
Inductive call : Type :=
| CreateAgentGraph (checkpointer : option BaseCheckpointSaver)
| AInvoke (agent_graph : Graph) (initial_state : gmap string state_value)
    (config : gmap string (gmap string string))
| StreamAgentResponse (agent_graph : Graph) (initial_state : gmap string state_value)
    (config : gmap string (gmap string string)).

(** The state of the process.
    - [_checkpointer]: the module-level global of [routes.py];
    - [app_state_checkpointer]: [app.state.checkpointer] of [main.py];
    - [urandom_draws]: how many times [os.urandom] was read;
    - [calls]: the calls made to the agent graph layer, oldest first;
    - [log]: the records written with [logger.error], oldest first;
    - [sent]: the frames yielded to the client, oldest first. *)
Record World : Type := mkWorld {
  _checkpointer : option BaseCheckpointSaver;
  app_state_checkpointer : option BaseCheckpointSaver;
  urandom_draws : nat;
  calls : list call;
  log : list string;
  sent : list string;
}.

(** The state at import time: [_checkpointer = None] (routes.py, line 24). *)
Definition module_init : World :=
  {| _checkpointer := None;
     app_state_checkpointer := None;
     urandom_draws := O;
     calls := [];
     log := [];
     sent := [] |}.

(** Computations over the process state that return or raise. *)
Definition M (A : Type) : Type := World -> outcome A * World.

#[local] Instance M_ret : MRet M := fun A a w => (Return a, w).

#[local] Instance M_bind : MBind M := fun A B k m w =>
  match m w with
  | (Return a, w') => k a w'
  | (Raise e, w') => (Raise e, w')
  end.

Definition raise {A : Type} (e : exn) : M A := fun w => (Raise e, w).

(** [try: body  except Exception as e: handler e].  The handler runs in
    the state the body left; an exception outside [Exception] is not
    caught. *)
Definition try_except {A : Type} (body : M A) (handler : exn -> M A) : M A :=
  fun w =>
    match body w with
    | (Return a, w') => (Return a, w')
    | (Raise e, w') => if is_Exception e then handler e w' else (Raise e, w')
    end.

(** Lifting a collaborator's result. *)
Definition lift {A : Type} (r : outcome A) : M A := fun w => (r, w).

(** Updates of one field of the state. *)
Definition with_call (c : call) (w : World) : World :=
  {| _checkpointer := _checkpointer w;
     app_state_checkpointer := app_state_checkpointer w;
     urandom_draws := urandom_draws w;
     calls := calls w ++ [c];
     log := log w;
     sent := sent w |}.

Definition with_log (msg : string) (w : World) : World :=
  {| _checkpointer := _checkpointer w;
     app_state_checkpointer := app_state_checkpointer w;
     urandom_draws := urandom_draws w;
     calls := calls w;
     log := log w ++ [msg];
     sent := sent w |}.

Definition with_frame (frame : string) (w : World) : World :=
  {| _checkpointer := _checkpointer w;
     app_state_checkpointer := app_state_checkpointer w;
     urandom_draws := urandom_draws w;
     calls := calls w;
     log := log w;
     sent := sent w ++ [frame] |}.

Definition with_frames (frames : list string) (w : World) : World :=
  {| _checkpointer := _checkpointer w;
     app_state_checkpointer := app_state_checkpointer w;
     urandom_draws := urandom_draws w;
     calls := calls w;
     log := log w;
     sent := sent w ++ frames |}.

Definition with_checkpointer (v : option BaseCheckpointSaver) (w : World) : World :=
  {| _checkpointer := v;
     app_state_checkpointer := app_state_checkpointer w;
     urandom_draws := urandom_draws w;
     calls := calls w;
     log := log w;
     sent := sent w |}.

Definition with_app_state_checkpointer (v : option BaseCheckpointSaver) (w : World)
  : World :=
  {| _checkpointer := _checkpointer w;
     app_state_checkpointer := v;
     urandom_draws := urandom_draws w;
     calls := calls w;
     log := log w;
     sent := sent w |}.

Definition with_draw (w : World) : World :=
  {| _checkpointer := _checkpointer w;
     app_state_checkpointer := app_state_checkpointer w;
     urandom_draws := S (urandom_draws w);
     calls := calls w;
     log := log w;
     sent := sent w |}.

Definition record_call (c : call) : M unit := fun w => (Return tt, with_call c w).

(** [logger.error(msg, exc_info=True)] *)
Definition logger_error (msg : string) : M unit := fun w => (Return tt, with_log msg w).

(** [yield frame] inside the response generator. *)
Definition yield (frame : string) : M unit := fun w => (Return tt, with_frame frame w).

(** [global _checkpointer; _checkpointer = v] *)
Definition set_checkpointer (v : option BaseCheckpointSaver) : M unit :=
  fun w => (Return tt, with_checkpointer v w).

(** [app.state.checkpointer = v] *)
Definition set_app_state_checkpointer (v : option BaseCheckpointSaver) : M unit :=
  fun w => (Return tt, with_app_state_checkpointer v w).

(** [str(uuid.uuid4())]: one more draw from [os.urandom]. *)
Definition str_uuid4 : M string := fun w =>
  (Return (uuid.str (uuid.uuid4 (os_urandom (urandom_draws w)))), with_draw w).

(** *** app/agent/checkpointer.py *)

(** [get_checkpointer]: returns [None] (checkpointing disabled). *)
Definition get_checkpointer : M (option BaseCheckpointSaver) := mret None.

(** *** app/main.py *)

(** [lifespan], lines 33-48, up to its [yield]: the PostgreSQL saver is
    opened on the database URL without its [+asyncpg], set up, and
    stored in [app.state.checkpointer].  The calls before it (logging,
    tracing, table creation) touch none of the state modelled here and
    are left out. *)
Definition lifespan_startup : M unit :=
  let checkpointer_url := Py.replace database_url "+asyncpg" "" in
  _ ← lift (postgres_setup checkpointer_url);
  set_app_state_checkpointer (Some (AsyncPostgresSaver checkpointer_url)).

(** *** app/api/routes.py *)

(** [get_agent_graph] (lines 27-35) *)
Definition get_agent_graph : M Graph :=
  _ ← (fun w =>
         match _checkpointer w with
         | None => (v ← get_checkpointer; set_checkpointer v) w
         | Some _ => (Return tt, w)
         end);
  checkpointer ← (fun w => (Return (_checkpointer w), w));
  _ ← record_call (CreateAgentGraph checkpointer);
  lift (create_agent_graph checkpointer).

(** [supplied or str(uuid.uuid4())] (lines 63 and 124): [None] and
    [""] are falsy, and the right operand is evaluated only then. *)
Definition or_str_uuid4 (supplied : option string) : M string :=
  match supplied with
  | Some s => if Py.str_truthy s then mret s else str_uuid4
  | None => str_uuid4
  end.

(** The dictionary appended for one tool call (lines 88-91). *)
Definition tool_call_record (tool_call : gmap string json) : gmap string json :=
  {[ "name" := dict_get tool_call "name"; "args" := dict_get tool_call "args" ]}.

(** The body of the outer loop (lines 86-91) for one message. *)
Definition scan_message (tool_calls : list (gmap string json)) (msg : Message.t)
  : list (gmap string json) :=
  match Message.tool_calls msg with
  | Some ((_ :: _) as msg_tool_calls) =>
      fold_left (fun acc tool_call => acc ++ [tool_call_record tool_call])
        msg_tool_calls tool_calls
  | Some [] => tool_calls
  | None => tool_calls
  end.

(** The tool-call extraction loop (lines 84-91). *)
Definition extract_tool_calls (messages : list Message.t) : list (gmap string json) :=
  fold_left scan_message messages [].

(** [initial_state] (lines 66-69 and 127-130) *)
Definition make_initial_state (message session_id : string) : gmap string state_value :=
  {[ "messages" := VMessages [HumanMessage message]; "session_id" := VStr session_id ]}.

(** [config] (lines 72 and 133) *)
Definition make_config (session_id : string) : gmap string (gmap string string) :=
  {[ "configurable" := {[ "thread_id" := session_id ]} ]}.

(** Truth value of a state value: an empty list and an empty string
    are falsy. *)
Definition value_truthy (v : state_value) : bool :=
  match v with
  | VMessages [] => false
  | VMessages (_ :: _) => true
  | VStr s => Py.str_truthy s
  end.

(** Lines 76-97 of [chat]: the response shaped from the graph result.
    A [str] under ["messages"] passes the emptiness test when it is not
    empty, and then has no [content] attribute (line 81). *)
Definition shape_response (result : gmap string state_value) (session_id : string)
  : M ChatResponse.t :=
  let messages := default (VMessages []) (result !! "messages") in
  if negb (value_truthy messages)
  then raise (HTTPException 500 "No response from agent")
  else
    match messages with
    | VStr _ => raise (AttributeError "'str' object has no attribute 'content'")
    | VMessages messages =>
        match last messages with
        | None => raise (IndexError "list index out of range")
        | Some final_message =>
            let response_text := Message.content final_message in
            let tool_calls := extract_tool_calls messages in
            mret {| ChatResponse.response := response_text;
                    ChatResponse.session_id := session_id;
                    ChatResponse.tool_calls :=
                      match tool_calls with
                      | [] => None
                      | _ :: _ => Some tool_calls
                      end |}
        end
    end.

(** [chat] (lines 46-101): the body of the handler.  The decorator of
    line 45 is [limited], below; the dependencies of lines 49-50 are
    resolved by the framework before the handler is called. *)
Definition chat (chat_request : ChatRequest.t) : M ChatResponse.t :=
  try_except
    (agent_graph ← get_agent_graph;
     session_id ← or_str_uuid4 (ChatRequest.session_id chat_request);
     let initial_state := make_initial_state (ChatRequest.message chat_request) session_id in
     let config := make_config session_id in
     _ ← record_call (AInvoke agent_graph initial_state config);
     result ← lift (ainvoke agent_graph initial_state config);
     shape_response result session_id)
    (fun e =>
       _ ← logger_error ("Error in chat endpoint: " +:+ str_exn e);
       raise (HTTPException 500 (str_exn e))).

(** [async for event in src: yield event] (lines 134-135) *)
Fixpoint async_for_yield (src : event_source) : M unit :=
  match src with
  | Yield event rest => _ ← yield event; async_for_yield rest
  | StopAsyncIteration => mret tt
  | Raises e => raise e
  end.

(** The frame of the [except] clause (line 139):
    [f"event: error\ndata: {str(e)}\n\n"]. *)
Definition error_frame (e : exn) : string :=
  "event: error" +:+ String "010" ("data: " +:+ str_exn e
    +:+ String "010" (String "010" EmptyString)).

(** [chat_stream.event_generator] (lines 118-139) *)
Definition event_generator (message : string) (session_id : option string) : M unit :=
  try_except
    (agent_graph ← get_agent_graph;
     sid ← or_str_uuid4 session_id;
     let initial_state := make_initial_state message sid in
     let config := make_config sid in
     _ ← record_call (StreamAgentResponse agent_graph initial_state config);
     async_for_yield (stream_agent_response agent_graph initial_state config))
    (fun e =>
       _ ← logger_error ("Error in streaming endpoint: " +:+ str_exn e);
       yield (error_frame e)).

(** [chat_stream] (lines 106-141): the body of the handler, with the
    generator drained.  [sent] holds the strings the generator yields,
    in order; how [EventSourceResponse] (sse-starlette, not among the
    sources) writes them to the connection is not modelled.  The
    decorator of line 105 is [limited], below. *)
Definition chat_stream (message : string) (session_id : option string) : M unit :=
  event_generator message session_id.


(** [@limiter.limit("100/minute")] (lines 45 and 105).

    Modelled from the spec: [app/core/rate_limit.py], where [limiter] is
    made, is not among the sources; sections 6 and 7 say that a caller
    over 100 requests a minute is answered HTTP 429 by the rate limiter.
    [verdict] is the limiter's answer for the call at hand: [None] lets
    it through, [Some detail] refuses it.  A refused call raises
    [RateLimitExceeded], an [HTTPException] with status 429, and the
    handler is not run. *)
Definition limited {A : Type} (verdict : option string) (handler : M A) : M A :=
  fun w =>
    match verdict with
    | Some detail => (Raise (HTTPException 429 detail), w)
    | None => handler w
    end.

(** [routes.chat] and [routes.chat_stream] as the router calls them:
    the handlers under their limiter. *)
Definition limited_chat (verdict : option string) (chat_request : ChatRequest.t)
  : M ChatResponse.t :=
  limited verdict (chat chat_request).

Definition limited_chat_stream (verdict : option string) (message : string)
    (session_id : option string) : M unit :=
  limited verdict (chat_stream message session_id).

(** ** Specification-side notions *)

(** The records one message contributes to the response: one per entry
    of its [tool_calls], none when the attribute is missing. *)
Definition tool_records (msg : Message.t) : list (gmap string json) :=
  map tool_call_record (default [] (Message.tool_calls msg)).

(** The list a response carries, reading an omitted field as empty. *)
Definition reported_tool_calls (r : ChatResponse.t) : list (gmap string json) :=
  default [] (ChatResponse.tool_calls r).

(** The session identifier a call to the graph carries in its state and
    in its thread configuration. *)
Definition state_session_id (st : gmap string state_value) : option string :=
  match st !! "session_id" with
  | Some (VStr s) => Some s
  | _ => None
  end.

Definition config_thread_id (cfg : gmap string (gmap string string)) : option string :=
  cfg !! "configurable" ≫= (fun c => c !! "thread_id").

(** A call is coherent for [sid] when a graph invocation carries [sid]
    in both places. *)
Definition coherent (sid : string) (c : call) : Prop :=
  match c with
  | CreateAgentGraph _ => True
  | AInvoke _ st cfg | StreamAgentResponse _ st cfg =>
      state_session_id st = Some sid ∧ config_thread_id cfg = Some sid
  end.

(** Session resolution in the spec's words: the supplied identifier
    unchanged when it is present and non-empty, the fresh one
    otherwise. *)
Definition resolved (supplied : option string) (fresh sid : string) : Prop :=
  match supplied with
  | Some s => if decide (s = ""%string) then sid = fresh else sid = s
  | None => sid = fresh
  end.

(** A call that hands no checkpoint saver to the graph factory. *)
Definition without_saver (c : call) : Prop :=
  match c with
  | CreateAgentGraph checkpointer => checkpointer = None
  | AInvoke _ _ _ | StreamAgentResponse _ _ _ => True
  end.

(** The requests the process serves, and the states it can be in. *)
Inductive request : Type :=
| PostChat (chat_request : ChatRequest.t)
| GetChatStream (message : string) (session_id : option string).

Definition serve (rq : request) (w : World) : World :=
  match rq with
  | PostChat chat_request => (chat chat_request w).2
  | GetChatStream message session_id => (chat_stream message session_id w).2
  end.

Inductive reachable : World -> Prop :=
| reachable_import : reachable module_init
| reachable_startup w : reachable w -> reachable (lifespan_startup w).2
| reachable_serve rq w : reachable w -> reachable (serve rq w).

(** The calls that build a graph. *)
Definition is_create (c : call) : bool :=
  match c with
  | CreateAgentGraph _ => true
  | AInvoke _ _ _ | StreamAgentResponse _ _ _ => false
  end.

Definition graph_builds (cs : list call) : nat := length (List.filter is_create cs).

(** Serving a request under the limiter, and a run of requests, each
    with the limiter's verdict for it. *)
Definition serve_limited (verdict : option string) (rq : request) (w : World) : World :=
  match rq with
  | PostChat chat_request => (limited_chat verdict chat_request w).2
  | GetChatStream message session_id =>
      (limited_chat_stream verdict message session_id w).2
  end.

Fixpoint serve_all_limited (rqs : list (option string * request)) (w : World) : World :=
  match rqs with
  | [] => w
  | (verdict, rq) :: rqs' => serve_all_limited rqs' (serve_limited verdict rq w)
  end.

(** The requests of a run that the limiter lets through. *)
Definition admitted (rqs : list (option string * request)) : nat :=
  length (List.filter (fun vr => match vr.1 with None => true | Some _ => false end) rqs).

(** The six bits of a version-4 UUID that are not random: the variant
    (bits 62 and 63) and the version (bits 76 to 79). *)
Definition fixed_bit (n : Z) : bool :=
  (n =? 62) || (n =? 63) || ((76 <=? n) && (n <=? 79)).

(** The value of a hexadecimal digit. *)
Definition hex_value (c : Ascii.ascii) : Z :=
  match c with
  | "0" => 0 | "1" => 1 | "2" => 2 | "3" => 3 | "4" => 4 | "5" => 5
  | "6" => 6 | "7" => 7 | "8" => 8 | "9" => 9 | "a" => 10 | "b" => 11
  | "c" => 12 | "d" => 13 | "e" => 14 | _ => 15
  end%char.

(** [needle in hay], and a session id that is returned to the caller of
    the streaming handler: it occurs in a frame sent. *)
Fixpoint occurs_in (needle hay : string) : bool :=
  String.prefix needle hay
  || match hay with
     | EmptyString => false
     | String _ hay' => occurs_in needle hay'
     end.

Definition returned_in (sid : string) (frames : list string) : bool :=
  existsb (occurs_in sid) frames.

(** A Server-Sent-Events frame in the spec's words (section 6): the
    event name on one line, the data on the next, and a blank line. *)
Definition sse_frame (event data : string) : string :=
  "event: " +:+ event +:+ String "010" ("data: " +:+ data
    +:+ String "010" (String "010" EmptyString)).

(** The tool invocations the messages carry, in the order in which a
    scan of the messages meets them. *)
Definition invocations (messages : list Message.t) : list (gmap string json) :=
  concat (map (fun msg => default [] (Message.tool_calls msg)) messages).

(** A record reports an invocation when it holds the name and the
    arguments of the invocation ([None] for one that is missing), and
    nothing else. *)
Definition reports (tool_call record : gmap string json) : Prop :=
  record !! "name" = Some (default JNull (tool_call !! "name"))
  /\ record !! "args" = Some (default JNull (tool_call !! "args"))
  /\ dom record = ({[ "name"; "args" ]} : gset string).

(** ** Running the monad *)

Lemma bind_run {A B : Type} (m : M A) (k : A -> M B) (w : World) :
  (m ≫= k) w =
  match m w with
  | (Return a, w') => k a w'
  | (Raise e, w') => (Raise e, w')
  end.
Proof. reflexivity. Qed.

Lemma get_agent_graph_run (w : World) :
  get_agent_graph w =
  (create_agent_graph (_checkpointer w), with_call (CreateAgentGraph (_checkpointer w)) w).
Proof.
  destruct w as [cp asc n cs lg st]. destruct cp as [cp|]; reflexivity.
Qed.

(** ** Session identifiers drawn from [uuid4] *)

Lemma string_length_app (s1 s2 : string) :
  String.length (s1 +:+ s2) = (String.length s1 + String.length s2)%nat.
Proof. induction s1 as [|c s1 IH]; simpl; [reflexivity | now rewrite IH]. Qed.

Lemma substring_length (s : string) :
  forall n m : nat,
    (n + m <= String.length s)%nat -> String.length (substring n m s) = m.
Proof.
  induction s as [|c s IH]; intros n m Hle; simpl in Hle.
  - destruct n, m; simpl; lia.
  - destruct n as [|n]; simpl.
    + destruct m as [|m]; simpl; [reflexivity|].
      rewrite (IH O m); [reflexivity | simpl; lia].
    + apply IH. lia.
Qed.

Lemma hex_fixed_length (width : nat) :
  forall z : Z, String.length (Py.hex_fixed width z) = width.
Proof.
  induction width as [|w IH]; intros z; simpl; [reflexivity|].
  rewrite string_length_app, IH. simpl. lia.
Qed.

(** The integer of a version-4 UUID fits 128 bits, so that its thirty-two
    low hexadecimal digits are all of its ['%032x'] rendering. *)
Lemma uuid4_range (r : Z) : 0 <= uuid.uuid4 r < 2 ^ 128.
Proof.
  assert (Hhigh : forall c n : Z, 0 <= c -> Z.log2 c < 128 -> 128 <= n -> Z.testbit c n = false).
  { intros c n Hc Hlog Hn. apply Z.bits_above_log2; lia. }
  assert (Hmod : uuid.uuid4 r mod 2 ^ 128 = uuid.uuid4 r).
  { rewrite <- Z.land_ones by lia. apply Z.bits_inj'. intros n Hn.
    rewrite Z.land_spec.
    destruct (Z.ltb_spec n 128) as [Hlt|Hge].
    - rewrite Z.ones_spec_low by lia. apply andb_true_r.
    - rewrite Z.ones_spec_high by lia. rewrite andb_false_r. symmetry.
      unfold uuid.uuid4.
      rewrite Z.lor_spec, Z.land_spec, Z.lor_spec, Z.land_spec.
      rewrite Z.mod_pow2_bits_high by lia.
      rewrite (Hhigh (Z.shiftl 0x8000 48) n), (Hhigh (Z.shiftl 4 76) n);
        try (vm_compute; congruence); lia. }
  rewrite <- Hmod. apply Z.mod_pos_bound. reflexivity.
Qed.

Lemma uuid_str_length (int : Z) : String.length (uuid.str int) = 36%nat.
Proof.
  unfold uuid.str. cbv zeta.
  repeat rewrite string_length_app.
  repeat rewrite substring_length by (rewrite hex_fixed_length; lia).
  reflexivity.
Qed.

Lemma uuid_str_nonempty (int : Z) : uuid.str int <> ""%string.
Proof.
  intros Heq. pose proof (uuid_str_length int) as Hlen.
  rewrite Heq in Hlen. discriminate Hlen.
Qed.

Lemma string_app_inj (a a' b b' : string) :
  String.length a = String.length a' ->
  a +:+ b = a' +:+ b' -> a = a' /\ b = b'.
Proof.
  revert a'. induction a as [|c a IH]; intros [|c' a'] Hlen Heq;
    try discriminate Hlen.
  - auto.
  - change (String c (a +:+ b) = String c' (a' +:+ b')) in Heq.
    injection Heq as -> Heq. simpl in Hlen.
    destruct (IH a' ltac:(lia) Heq) as [-> ->]. auto.
Qed.

Lemma hex_value_digit (d : Z) : 0 <= d < 16 -> hex_value (Py.hex_digit d) = d.
Proof.
  intros Hd.
  assert (Hcases : d = 0 \/ d = 1 \/ d = 2 \/ d = 3 \/ d = 4 \/ d = 5 \/ d = 6 \/ d = 7
                   \/ d = 8 \/ d = 9 \/ d = 10 \/ d = 11 \/ d = 12 \/ d = 13 \/ d = 14
                   \/ d = 15) by lia.
  repeat (destruct Hcases as [->|Hcases]; [reflexivity|]). subst d. reflexivity.
Qed.

(** The digits written determine the number, up to the width written. *)
Lemma hex_fixed_inj (width : nat) :
  forall a b : Z,
    Py.hex_fixed width a = Py.hex_fixed width b ->
    a mod 16 ^ Z.of_nat width = b mod 16 ^ Z.of_nat width.
Proof.
  induction width as [|w IH]; intros a b Heq.
  - simpl. now rewrite !Z.mod_1_r.
  - simpl in Heq.
    apply string_app_inj in Heq as [Hhigh Hlow];
      [|now rewrite !hex_fixed_length].
    injection Hlow as Hlow. apply (f_equal hex_value) in Hlow.
    rewrite !Z.shiftr_div_pow2 in Hhigh by lia.
    change (Z.land a 15) with (Z.land a (Z.ones 4)) in Hlow.
    change (Z.land b 15) with (Z.land b (Z.ones 4)) in Hlow.
    rewrite !Z.land_ones in Hlow by lia.
    rewrite !hex_value_digit in Hlow by (apply Z.mod_pos_bound; lia).
    apply IH in Hhigh.
    rewrite Nat2Z.inj_succ, Z.pow_succ_r by lia.
    change (2 ^ 4) with 16 in *.
    rewrite !(Z.rem_mul_r _ 16) by lia.
    rewrite Hlow, Hhigh. reflexivity.
Qed.

Lemma substring_all (s : string) : substring 0 (String.length s) s = s.
Proof. induction s as [|c s IH]; simpl; [reflexivity | now rewrite IH]. Qed.

Lemma substring_split (s : string) :
  forall n m k : nat,
    substring n (m + k) s = substring n m s +:+ substring (n + m) k s.
Proof.
  induction s as [|c s IH]; intros n m k.
  - destruct n, m, k; reflexivity.
  - destruct n as [|n].
    + destruct m as [|m].
      * reflexivity.
      * change (String c (substring 0 (m + k) s)
                = String c (substring 0 m s +:+ substring (0 + m) k s)).
        now rewrite IH.
    + change (substring n (m + k) s = substring n m s +:+ substring (n + m) k s).
      apply IH.
Qed.

(** [str(UUID)] is one-to-one on 128-bit integers. *)
Lemma uuid_str_inj (a b : Z) :
  0 <= a < 2 ^ 128 -> 0 <= b < 2 ^ 128 -> uuid.str a = uuid.str b -> a = b.
Proof.
  intros Ha Hb Heq. unfold uuid.str in Heq. cbv zeta in Heq.
  pose proof (hex_fixed_length 32 a) as Hla.
  pose proof (hex_fixed_length 32 b) as Hlb.
  set (ha := Py.hex_fixed 32 a) in *. set (hb := Py.hex_fixed 32 b) in *.
  assert (Hlen : forall n m, (n + m <= 32)%nat ->
            String.length (substring n m ha) = String.length (substring n m hb)).
  { intros n m Hnm. rewrite !substring_length by lia. reflexivity. }
  apply string_app_inj in Heq as [H1 Heq]; [|apply Hlen; lia].
  apply string_app_inj in Heq as [_ Heq]; [|reflexivity].
  apply string_app_inj in Heq as [H2 Heq]; [|apply Hlen; lia].
  apply string_app_inj in Heq as [_ Heq]; [|reflexivity].
  apply string_app_inj in Heq as [H3 Heq]; [|apply Hlen; lia].
  apply string_app_inj in Heq as [_ Heq]; [|reflexivity].
  apply string_app_inj in Heq as [H4 Heq]; [|apply Hlen; lia].
  apply string_app_inj in Heq as [_ H5]; [|reflexivity].
  assert (Hparts : forall h, String.length h = 32%nat ->
            h = substring 0 8 h +:+ substring 8 4 h +:+ substring 12 4 h
                +:+ substring 16 4 h +:+ substring 20 12 h).
  { intros h Hh.
    assert (E1 : substring 0 32 h = substring 0 8 h +:+ substring 8 24 h)
      by exact (substring_split h 0 8 24).
    assert (E2 : substring 8 24 h = substring 8 4 h +:+ substring 12 20 h)
      by exact (substring_split h 8 4 20).
    assert (E3 : substring 12 20 h = substring 12 4 h +:+ substring 16 16 h)
      by exact (substring_split h 12 4 16).
    assert (E4 : substring 16 16 h = substring 16 4 h +:+ substring 20 12 h)
      by exact (substring_split h 16 4 12).
    rewrite <- E4, <- E3, <- E2, <- E1, <- Hh. symmetry. apply substring_all. }
  assert (Hhex : ha = hb).
  { rewrite (Hparts ha Hla), (Hparts hb Hlb), H1, H2, H3, H4, H5. reflexivity. }
  subst ha hb. apply hex_fixed_inj in Hhex.
  change (16 ^ Z.of_nat 32) with (2 ^ 128) in Hhex.
  rewrite !Z.mod_small in Hhex by assumption. exact Hhex.
Qed.

(** [uuid4] writes the variant and the version over six bits of the
    draw and keeps the other 122. *)
Lemma uuid4_keeps_random_bits (r n : Z) :
  0 <= n < 128 -> fixed_bit n = false ->
  Z.testbit (uuid.uuid4 r) n = Z.testbit r n.
Proof.
  intros Hn Hfree. unfold fixed_bit in Hfree.
  assert (Hne : n <> 62 /\ n <> 63 /\ ~ (76 <= n <= 79)).
  { destruct (Z.eqb_spec n 62), (Z.eqb_spec n 63), (Z.leb_spec 76 n), (Z.leb_spec n 79);
      simpl in Hfree; try discriminate; repeat split; lia. }
  destruct Hne as (H62 & H63 & H76).
  assert (Hmask : forall width low, 0 <= width -> 0 <= low ->
            (n < low \/ low + width <= n) ->
            Z.testbit (Z.shiftl (Z.ones width) low) n = false).
  { intros width low Hw Hl Hout. rewrite Z.shiftl_spec by lia.
    destruct Hout as [Hlt|Hge].
    - apply Z.testbit_neg_r. lia.
    - apply Z.ones_spec_high. lia. }
  unfold uuid.uuid4. cbv zeta.
  change (Z.shiftl 0xc000 48) with (Z.shiftl (Z.ones 2) 62).
  change (Z.shiftl 0x8000 48) with (Z.shiftl (Z.ones 1) 63).
  change (Z.shiftl 0xf000 64) with (Z.shiftl (Z.ones 4) 76).
  change (Z.shiftl 4 76) with (Z.shiftl (Z.ones 1) 78).
  rewrite Z.lor_spec, Z.land_spec, Z.lor_spec, Z.land_spec.
  rewrite !Z.lnot_spec by lia.
  rewrite !Hmask by lia.
  rewrite Z.mod_pow2_bits_low by lia.
  simpl. rewrite !orb_false_r, !andb_true_r. reflexivity.
Qed.

(** Two draws that differ in a random bit give two different
    identifiers. *)
Lemma uuid4_str_distinct (r1 r2 n : Z) :
  0 <= n < 128 -> fixed_bit n = false ->
  Z.testbit r1 n <> Z.testbit r2 n ->
  uuid.str (uuid.uuid4 r1) <> uuid.str (uuid.uuid4 r2).
Proof.
  intros Hn Hfree Hbit Heq.
  apply uuid_str_inj in Heq; try apply uuid4_range.
  apply Hbit.
  rewrite <- (uuid4_keeps_random_bits r1 n Hn Hfree),
    <- (uuid4_keeps_random_bits r2 n Hn Hfree), Heq.
  reflexivity.
Qed.

Example str_uuid4_zero :
  uuid.str (uuid.uuid4 0) = "00000000-0000-4000-8000-000000000000"%string.
Proof. vm_compute. reflexivity. Qed.

Example str_uuid4_ones :
  uuid.str (uuid.uuid4 (2 ^ 128 - 1)) = "ffffffff-ffff-4fff-bfff-ffffffffffff"%string.
Proof. vm_compute. reflexivity. Qed.

Example replace_asyncpg :
  Py.replace "postgresql+asyncpg://u:p@db/app" "+asyncpg" ""
  = "postgresql://u:p@db/app"%string.
Proof. reflexivity. Qed.

Example str_HTTPException :
  str_exn (HTTPException 500 "No response from agent")
  = "500: No response from agent"%string.
Proof. vm_compute. reflexivity. Qed.

(** ** Running the handlers *)

Ltac run_step :=
  first [ rewrite bind_run
        | progress unfold record_call, lift, logger_error, yield, raise
        | progress cbv iota beta ].

(** The identifier [or_str_uuid4] returns depends on the state only
    through the number of draws made so far. *)
Lemma or_str_uuid4_value (supplied : option string) (w : World) :
  (or_str_uuid4 supplied w).1 =
  Return (match supplied with
          | Some (String c s) => String c s
          | _ => uuid.str (uuid.uuid4 (os_urandom (urandom_draws w)))
          end).
Proof. destruct supplied as [[|c s]|]; reflexivity. Qed.

Lemma or_str_uuid4_returns (supplied : option string) (w : World) :
  exists sid w', or_str_uuid4 supplied w = (Return sid, w')
    /\ _checkpointer w' = _checkpointer w
    /\ calls w' = calls w /\ log w' = log w /\ sent w' = sent w.
Proof.
  destruct supplied as [[|c s]|]; simpl; eauto 10.
Qed.

Lemma or_str_uuid4_after_call (supplied : option string) (c : call) (w : World) :
  (or_str_uuid4 supplied (with_call c w)).1 = (or_str_uuid4 supplied w).1.
Proof. rewrite !or_str_uuid4_value. reflexivity. Qed.

(** The outcome of [shape_response] does not depend on the state, and
    the state is left as it was. *)
Lemma shape_response_pure (result : gmap string state_value) (sid : string) (w : World) :
  shape_response result sid w = ((shape_response result sid module_init).1, w).
Proof.
  unfold shape_response.
  destruct (default (VMessages []) (result !! "messages")) as [[|m ms]|[|c s]];
    simpl; try reflexivity.
  destruct (last (m :: ms)); reflexivity.
Qed.

(** The batch handler, step by step: the state in which the graph is
    invoked, and what becomes of the graph's answer. *)
Lemma chat_run (chat_request : ChatRequest.t) (w : World) :
  let cp := _checkpointer w in
  let w1 := with_call (CreateAgentGraph cp) w in
  chat chat_request w =
  match create_agent_graph cp with
  | Raise e =>
      if is_Exception e
      then (Raise (HTTPException 500 (str_exn e)),
            with_log ("Error in chat endpoint: " +:+ str_exn e) w1)
      else (Raise e, w1)
  | Return g =>
      match or_str_uuid4 (ChatRequest.session_id chat_request) w1 with
      | (Raise e, w2) => (Raise e, w2)
      | (Return sid, w2) =>
          let st := make_initial_state (ChatRequest.message chat_request) sid in
          let cfg := make_config sid in
          let w3 := with_call (AInvoke g st cfg) w2 in
          let answer :=
            match ainvoke g st cfg with
            | Return result => (shape_response result sid module_init).1
            | Raise e => Raise e
            end in
          match answer with
          | Return r => (Return r, w3)
          | Raise e =>
              if is_Exception e
              then (Raise (HTTPException 500 (str_exn e)),
                    with_log ("Error in chat endpoint: " +:+ str_exn e) w3)
              else (Raise e, w3)
          end
      end
  end.
Proof.
  cbv zeta. unfold chat, try_except.
  rewrite bind_run, get_agent_graph_run.
  destruct (create_agent_graph (_checkpointer w)) as [g|e]; cbv iota beta.
  - rewrite bind_run.
    destruct (or_str_uuid4_returns (ChatRequest.session_id chat_request)
                (with_call (CreateAgentGraph (_checkpointer w)) w))
      as (sid & w2 & Hrun & _).
    rewrite Hrun. repeat run_step.
    destruct (ainvoke g _ _) as [result|e]; cbv iota beta.
    + rewrite shape_response_pure.
      destruct (shape_response result sid module_init).1 as [r|e]; [reflexivity|].
      destruct (is_Exception e); reflexivity.
    + destruct (is_Exception e); reflexivity.
  - destruct (is_Exception e); reflexivity.
Qed.

(** Iterating an event source yields its events in order and ends the
    way the source ends. *)
Lemma async_for_yield_run (src : event_source) :
  forall w : World,
    async_for_yield src w =
    (match failure_of src with
     | None => Return tt
     | Some e => Raise e
     end,
     with_frames (events_of src) w).
Proof.
  induction src as [event rest IH| |e]; intros w; simpl.
  - rewrite bind_run. unfold yield. cbv iota beta. rewrite IH.
    f_equal. unfold with_frames, with_frame. simpl.
    rewrite <- app_assoc. reflexivity.
  - unfold mret, M_ret. f_equal.
    destruct w; unfold with_frames; simpl. rewrite app_nil_r. reflexivity.
  - unfold raise. f_equal.
    destruct w; unfold with_frames; simpl. rewrite app_nil_r. reflexivity.
Qed.

(** The streaming handler, step by step. *)
Lemma event_generator_run (message : string) (session_id : option string) (w : World) :
  let cp := _checkpointer w in
  let w1 := with_call (CreateAgentGraph cp) w in
  let caught e w' :=
    (Return tt,
     with_frame (error_frame e)
       (with_log ("Error in streaming endpoint: " +:+ str_exn e) w')) in
  event_generator message session_id w =
  match create_agent_graph cp with
  | Raise e => if is_Exception e then caught e w1 else (Raise e, w1)
  | Return g =>
      match or_str_uuid4 session_id w1 with
      | (Raise e, w2) => (Raise e, w2)
      | (Return sid, w2) =>
          let st := make_initial_state message sid in
          let cfg := make_config sid in
          let src := stream_agent_response g st cfg in
          let w3 := with_frames (events_of src) (with_call (StreamAgentResponse g st cfg) w2) in
          match failure_of src with
          | None => (Return tt, w3)
          | Some e => if is_Exception e then caught e w3 else (Raise e, w3)
          end
      end
  end.
Proof.
  cbv zeta. unfold event_generator, try_except.
  rewrite bind_run, get_agent_graph_run.
  destruct (create_agent_graph (_checkpointer w)) as [g|e]; cbv iota beta.
  - rewrite bind_run.
    destruct (or_str_uuid4_returns session_id
                (with_call (CreateAgentGraph (_checkpointer w)) w))
      as (sid & w2 & Hrun & _).
    rewrite Hrun. cbv iota beta. rewrite bind_run. unfold record_call at 1.
    cbv iota beta. rewrite async_for_yield_run.
    destruct (failure_of _) as [e|]; [|reflexivity].
    destruct (is_Exception e); reflexivity.
  - destruct (is_Exception e); reflexivity.
Qed.

(** The outcome of the batch handler once the graph is built and has
    answered the invocation made with the resolved session id. *)
Lemma chat_answered (chat_request : ChatRequest.t) (w : World) (g : Graph)
    (sid : string) (result : gmap string state_value) :
  create_agent_graph (_checkpointer w) = Return g ->
  (or_str_uuid4 (ChatRequest.session_id chat_request) w).1 = Return sid ->
  ainvoke g (make_initial_state (ChatRequest.message chat_request) sid) (make_config sid)
    = Return result ->
  (chat chat_request w).1 =
  match (shape_response result sid module_init).1 with
  | Return r => Return r
  | Raise e => if is_Exception e then Raise (HTTPException 500 (str_exn e)) else Raise e
  end.
Proof.
  intros Hg Hsid Hres. rewrite chat_run. cbv zeta. rewrite Hg.
  rewrite <- (or_str_uuid4_after_call _ (CreateAgentGraph (_checkpointer w))) in Hsid.
  destruct (or_str_uuid4 _ (with_call _ w)) as [[sid'|e] w2]; simpl in Hsid;
    [|discriminate Hsid].
  injection Hsid as ->. rewrite Hres.
  destruct (shape_response result sid module_init).1 as [r|e]; [reflexivity|].
  destruct (is_Exception e); reflexivity.
Qed.

(** ** The tool-call extraction loop *)

Lemma append_loop_app (msg_tool_calls : list (gmap string json)) :
  forall acc : list (gmap string json),
    fold_left (fun acc tool_call => acc ++ [tool_call_record tool_call]) msg_tool_calls acc
    = acc ++ map tool_call_record msg_tool_calls.
Proof.
  induction msg_tool_calls as [|tc tcs IH]; intros acc; simpl.
  - now rewrite app_nil_r.
  - rewrite IH, <- app_assoc. reflexivity.
Qed.

Lemma scan_message_app (acc : list (gmap string json)) (msg : Message.t) :
  scan_message acc msg = acc ++ tool_records msg.
Proof.
  unfold scan_message, tool_records.
  destruct (Message.tool_calls msg) as [[|tc tcs]|]; simpl;
    rewrite ?app_nil_r; try reflexivity.
  rewrite append_loop_app, <- app_assoc. reflexivity.
Qed.

Lemma scan_loop_app (messages : list Message.t) :
  forall acc : list (gmap string json),
    fold_left scan_message messages acc = acc ++ concat (map tool_records messages).
Proof.
  induction messages as [|m ms IH]; intros acc; simpl.
  - now rewrite app_nil_r.
  - rewrite IH, scan_message_app, <- app_assoc. reflexivity.
Qed.

(** The loop of lines 84-91 computes the concatenation, in message
    order, of the records of each message. *)
Lemma extract_tool_calls_concat (messages : list Message.t) :
  extract_tool_calls messages = concat (map tool_records messages).
Proof. unfold extract_tool_calls. now rewrite scan_loop_app. Qed.

(** What [shape_response] makes of a non-empty list of messages. *)
Lemma shape_response_messages (result : gmap string state_value) (sid : string)
    (messages : list Message.t) (final_message : Message.t) :
  result !! "messages" = Some (VMessages messages) ->
  last messages = Some final_message ->
  (shape_response result sid module_init).1 =
  Return {| ChatResponse.response := Message.content final_message;
            ChatResponse.session_id := sid;
            ChatResponse.tool_calls :=
              match concat (map tool_records messages) with
              | [] => None
              | _ :: _ => Some (concat (map tool_records messages))
              end |}.
Proof.
  intros Hmsgs Hlast. unfold shape_response. rewrite Hmsgs. simpl.
  destruct messages as [|m ms]; [discriminate Hlast|]. simpl negb. cbv iota.
  rewrite Hlast, extract_tool_calls_concat. reflexivity.
Qed.

(** What [shape_response] makes of a result without messages. *)
Lemma shape_response_empty (result : gmap string state_value) (sid : string) :
  default (VMessages []) (result !! "messages") = VMessages [] ->
  (shape_response result sid module_init).1
  = Raise (HTTPException 500 "No response from agent").
Proof. intros Hempty. unfold shape_response. rewrite Hempty. reflexivity. Qed.

(** ** Calls and outcomes of the batch handler *)

Lemma chat_calls (chat_request : ChatRequest.t) (w : World) (g : Graph) (sid : string) :
  create_agent_graph (_checkpointer w) = Return g ->
  (or_str_uuid4 (ChatRequest.session_id chat_request) w).1 = Return sid ->
  calls (chat chat_request w).2 =
  calls w ++ [CreateAgentGraph (_checkpointer w);
              AInvoke g (make_initial_state (ChatRequest.message chat_request) sid)
                (make_config sid)].
Proof.
  intros Hg Hsid. rewrite chat_run. cbv zeta. rewrite Hg.
  rewrite <- (or_str_uuid4_after_call _ (CreateAgentGraph (_checkpointer w))) in Hsid.
  destruct (or_str_uuid4_returns (ChatRequest.session_id chat_request)
              (with_call (CreateAgentGraph (_checkpointer w)) w))
    as (sid' & w2 & Hrun & _ & Hcalls & _).
  rewrite Hrun in Hsid |- *. simpl in Hsid. injection Hsid as ->.
  assert (Hgoal : calls (with_call (AInvoke g
                    (make_initial_state (ChatRequest.message chat_request) sid)
                    (make_config sid)) w2)
                  = calls w ++ [CreateAgentGraph (_checkpointer w);
                       AInvoke g (make_initial_state (ChatRequest.message chat_request) sid)
                         (make_config sid)]).
  { simpl. rewrite Hcalls. simpl. rewrite <- app_assoc. reflexivity. }
  destruct (ainvoke g _ _) as [result|e];
    [destruct (shape_response result sid module_init).1 as [r|e]|];
    try destruct (is_Exception e); exact Hgoal.
Qed.

Lemma chat_calls_no_graph (chat_request : ChatRequest.t) (w : World) (e : exn) :
  create_agent_graph (_checkpointer w) = Raise e ->
  calls (chat chat_request w).2 = calls w ++ [CreateAgentGraph (_checkpointer w)].
Proof.
  intros Hg. rewrite chat_run. cbv zeta. rewrite Hg.
  destruct (is_Exception e); reflexivity.
Qed.

(** Whatever happens, the batch handler returns a response, raises an
    HTTP 500, or lets through an exception outside [Exception]. *)
Lemma chat_outcome_cases (chat_request : ChatRequest.t) (w : World) :
  (exists r, (chat chat_request w).1 = Return r)
  \/ (exists detail, (chat chat_request w).1 = Raise (HTTPException 500 detail))
  \/ (exists e, (chat chat_request w).1 = Raise e /\ is_Exception e = false).
Proof.
  rewrite chat_run. cbv zeta.
  destruct (create_agent_graph (_checkpointer w)) as [g|e].
  - destruct (or_str_uuid4_returns (ChatRequest.session_id chat_request)
                (with_call (CreateAgentGraph (_checkpointer w)) w))
      as (sid & w2 & Hrun & _).
    rewrite Hrun.
    destruct (ainvoke g _ _) as [result|e];
      [destruct (shape_response result sid module_init).1 as [r|e]|];
      try (destruct (is_Exception e) eqn:He); simpl; eauto.
  - destruct (is_Exception e) eqn:He; simpl; eauto.
Qed.

(** ** The batch handler: claims *)

(** C3.  EmptyResponse: when the result of the agent graph holds no
    messages (the key is missing or its list is empty), the batch
    handler raises an HTTP 500 and returns no response. *)
Theorem empty_result_server_error (chat_request : ChatRequest.t) (w : World)
    (g : Graph) (sid : string) (result : gmap string state_value) :
  create_agent_graph (_checkpointer w) = Return g ->
  (or_str_uuid4 (ChatRequest.session_id chat_request) w).1 = Return sid ->
  ainvoke g (make_initial_state (ChatRequest.message chat_request) sid) (make_config sid)
    = Return result ->
  default (VMessages []) (result !! "messages") = VMessages [] ->
  (exists detail, (chat chat_request w).1 = Raise (HTTPException 500 detail))
  /\ (forall r, (chat chat_request w).1 <> Return r).
Proof.
  intros Hg Hsid Hres Hempty.
  rewrite (chat_answered _ _ _ _ _ Hg Hsid Hres), (shape_response_empty _ _ Hempty).
  simpl. split; [eexists; reflexivity | discriminate].
Qed.

(** C10.  When the result holds no messages, the HTTP 500 raised at
    line 78 is caught by the handler's own [except Exception] and raised
    anew with [detail=str(e)]: the caller sees the detail
    ["500: No response from agent"], not ["No response from agent"],
    and the rendered text is what is logged. *)
Theorem empty_result_detail_rendered (chat_request : ChatRequest.t) (w : World)
    (g : Graph) (sid : string) (result : gmap string state_value) :
  create_agent_graph (_checkpointer w) = Return g ->
  (or_str_uuid4 (ChatRequest.session_id chat_request) w).1 = Return sid ->
  ainvoke g (make_initial_state (ChatRequest.message chat_request) sid) (make_config sid)
    = Return result ->
  default (VMessages []) (result !! "messages") = VMessages [] ->
  (chat chat_request w).1
  = Raise (HTTPException 500 (str_exn (HTTPException 500 "No response from agent")))
  /\ str_exn (HTTPException 500 "No response from agent")
     = "500: No response from agent"%string
  /\ (chat chat_request w).1 <> Raise (HTTPException 500 "No response from agent")
  /\ log (chat chat_request w).2
     = log w ++ ["Error in chat endpoint: 500: No response from agent"%string].
Proof.
  intros Hg Hsid Hres Hempty.
  assert (Hout : (chat chat_request w).1
                 = Raise (HTTPException 500
                            (str_exn (HTTPException 500 "No response from agent")))).
  { rewrite (chat_answered _ _ _ _ _ Hg Hsid Hres), (shape_response_empty _ _ Hempty).
    reflexivity. }
  split; [exact Hout|]. split; [vm_compute; reflexivity|].
  split.
  - rewrite Hout. vm_compute. congruence.
  - rewrite chat_run. cbv zeta. rewrite Hg.
    rewrite <- (or_str_uuid4_after_call _ (CreateAgentGraph (_checkpointer w))) in Hsid.
    destruct (or_str_uuid4_returns (ChatRequest.session_id chat_request)
                (with_call (CreateAgentGraph (_checkpointer w)) w))
      as (sid' & w2 & Hrun & _ & _ & Hlog & _).
    rewrite Hrun in Hsid |- *. simpl in Hsid. injection Hsid as ->.
    rewrite Hres, (shape_response_empty _ _ Hempty). simpl. rewrite Hlog.
    reflexivity.
Qed.

(** The record the loop appends reports the tool call it was made
    from. *)
Lemma tool_call_record_reports (tool_call : gmap string json) :
  reports tool_call (tool_call_record tool_call).
Proof.
  unfold reports, tool_call_record, dict_get. split; [|split].
  - apply lookup_insert_eq.
  - rewrite lookup_insert_ne by discriminate. apply lookup_singleton_eq.
  - rewrite dom_insert_L, dom_singleton_L. reflexivity.
Qed.

Lemma tool_records_report (messages : list Message.t) :
  Forall2 reports (invocations messages) (concat (map tool_records messages)).
Proof.
  unfold invocations. induction messages as [|msg messages IH]; simpl; [constructor|].
  apply Forall2_app; [|exact IH].
  unfold tool_records.
  induction (default [] (Message.tool_calls msg)) as [|tool_call tool_calls IHtc];
    simpl; constructor; [apply tool_call_record_reports | exact IHtc].
Qed.

(** C4.  Tool-call aggregation: when the result holds a non-empty list
    of messages, the handler returns a response whose text is the
    content of the last message and whose tool calls answer, one for
    one and in the order of a scan of the messages, to the tool
    invocations the messages carry: each record holds the name and the
    arguments of its invocation, and nothing else. *)
Theorem tool_call_aggregation (chat_request : ChatRequest.t) (w : World)
    (g : Graph) (sid : string) (result : gmap string state_value)
    (messages : list Message.t) :
  create_agent_graph (_checkpointer w) = Return g ->
  (or_str_uuid4 (ChatRequest.session_id chat_request) w).1 = Return sid ->
  ainvoke g (make_initial_state (ChatRequest.message chat_request) sid) (make_config sid)
    = Return result ->
  result !! "messages" = Some (VMessages messages) ->
  messages <> [] ->
  exists (r : ChatResponse.t) (final_message : Message.t),
    (chat chat_request w).1 = Return r
    /\ last messages = Some final_message
    /\ ChatResponse.response r = Message.content final_message
    /\ Forall2 reports (invocations messages) (reported_tool_calls r).
Proof.
  intros Hg Hsid Hres Hmsgs Hne.
  destruct (last messages) as [final_message|] eqn:Hlast;
    [|apply last_None in Hlast; contradiction].
  rewrite (chat_answered _ _ _ _ _ Hg Hsid Hres),
    (shape_response_messages _ _ _ _ Hmsgs Hlast).
  eexists _, final_message. split; [reflexivity|]. split; [reflexivity|].
  split; [reflexivity|].
  unfold reported_tool_calls. simpl ChatResponse.tool_calls.
  pose proof (tool_records_report messages) as Hrep.
  destruct (concat (map tool_records messages)); exact Hrep.
Qed.

(** C5.  Tool-call omission: when the result holds at least one message
    and no message contributes a record, the response carries no
    [tool_calls] at all ([None]), not an empty list. *)
Theorem tool_calls_omitted_when_none (chat_request : ChatRequest.t) (w : World)
    (g : Graph) (sid : string) (result : gmap string state_value)
    (messages : list Message.t) :
  create_agent_graph (_checkpointer w) = Return g ->
  (or_str_uuid4 (ChatRequest.session_id chat_request) w).1 = Return sid ->
  ainvoke g (make_initial_state (ChatRequest.message chat_request) sid) (make_config sid)
    = Return result ->
  result !! "messages" = Some (VMessages messages) ->
  messages <> [] ->
  Forall (fun msg => tool_records msg = []) messages ->
  exists r : ChatResponse.t,
    (chat chat_request w).1 = Return r
    /\ ChatResponse.tool_calls r = None
    /\ ChatResponse.tool_calls r <> Some [].
Proof.
  intros Hg Hsid Hres Hmsgs Hne Hnone.
  destruct (last messages) as [final_message|] eqn:Hlast;
    [|apply last_None in Hlast; contradiction].
  rewrite (chat_answered _ _ _ _ _ Hg Hsid Hres),
    (shape_response_messages _ _ _ _ Hmsgs Hlast).
  assert (Hflat : concat (map tool_records messages) = []).
  { clear -Hnone. induction Hnone as [|m ms Hm _ IH]; simpl; [reflexivity|].
    now rewrite Hm, IH. }
  rewrite Hflat. eexists. split; [reflexivity|]. split; [reflexivity | discriminate].
Qed.

(** X10.  A response never carries an empty [tool_calls] list, whatever
    the graph returned. *)
Lemma chat_tool_calls_never_empty (chat_request : ChatRequest.t) (w : World)
    (r : ChatResponse.t) :
  (chat chat_request w).1 = Return r -> ChatResponse.tool_calls r <> Some [].
Proof.
  rewrite chat_run. cbv zeta.
  destruct (create_agent_graph (_checkpointer w)) as [g|e];
    [|destruct (is_Exception e); discriminate].
  destruct (or_str_uuid4 _ _) as [[sid|e] w2]; [|discriminate].
  destruct (ainvoke g _ _) as [result|e];
    [|destruct (is_Exception e); discriminate].
  unfold shape_response.
  destruct (default (VMessages []) (result !! "messages")) as [[|m ms]|[|c s]];
    simpl; try discriminate.
  destruct (last (m :: ms)); simpl; [|discriminate].
  intros Hr. injection Hr as <-. simpl.
  destruct (extract_tool_calls (m :: ms)); discriminate.
Qed.

(** ** Session identifiers *)

Lemma or_str_uuid4_resolved (supplied : option string) (w : World) (sid : string) :
  (or_str_uuid4 supplied w).1 = Return sid ->
  resolved supplied (uuid.str (uuid.uuid4 (os_urandom (urandom_draws w)))) sid.
Proof.
  rewrite or_str_uuid4_value. intros Hsid. injection Hsid as <-.
  destruct supplied as [[|c s]|]; simpl; reflexivity.
Qed.

Lemma or_str_uuid4_total (supplied : option string) (w : World) :
  exists sid, (or_str_uuid4 supplied w).1 = Return sid.
Proof. rewrite or_str_uuid4_value. eauto. Qed.

Lemma state_session_id_initial (message sid : string) :
  state_session_id (make_initial_state message sid) = Some sid.
Proof.
  unfold state_session_id, make_initial_state.
  rewrite lookup_insert_ne by discriminate. rewrite lookup_singleton_eq. reflexivity.
Qed.

Lemma state_messages_initial (message sid : string) :
  make_initial_state message sid !! "messages" = Some (VMessages [HumanMessage message]).
Proof. unfold make_initial_state. apply lookup_insert_eq. Qed.

Lemma config_thread_id_make (sid : string) :
  config_thread_id (make_config sid) = Some sid.
Proof.
  unfold config_thread_id, make_config. rewrite lookup_singleton_eq. simpl.
  apply lookup_singleton_eq.
Qed.

Lemma shape_response_session_id (result : gmap string state_value) (sid : string)
    (r : ChatResponse.t) :
  (shape_response result sid module_init).1 = Return r -> ChatResponse.session_id r = sid.
Proof.
  unfold shape_response.
  destruct (default (VMessages []) (result !! "messages")) as [[|m ms]|[|c s]];
    simpl; try discriminate.
  destruct (last (m :: ms)); simpl; [|discriminate].
  intros Hr. injection Hr as <-. reflexivity.
Qed.

(** A response echoes the session id the graph was invoked with. *)
Lemma chat_response_session_id (chat_request : ChatRequest.t) (w : World)
    (sid : string) (r : ChatResponse.t) :
  (or_str_uuid4 (ChatRequest.session_id chat_request) w).1 = Return sid ->
  (chat chat_request w).1 = Return r ->
  ChatResponse.session_id r = sid.
Proof.
  intros Hsid. rewrite chat_run. cbv zeta.
  destruct (create_agent_graph (_checkpointer w)) as [g|e];
    [|destruct (is_Exception e); discriminate].
  rewrite <- (or_str_uuid4_after_call _ (CreateAgentGraph (_checkpointer w))) in Hsid.
  destruct (or_str_uuid4 _ (with_call _ w)) as [[sid'|e] w2]; simpl in Hsid;
    [|discriminate].
  injection Hsid as ->.
  destruct (ainvoke g _ _) as [result|e];
    [|destruct (is_Exception e); discriminate].
  destruct (shape_response result sid module_init).1 as [r'|e] eqn:Hshape;
    [|destruct (is_Exception e); discriminate].
  simpl. intros Hr. injection Hr as <-.
  exact (shape_response_session_id _ _ _ Hshape).
Qed.

(** The calls of the streaming handler. *)
Lemma chat_stream_calls (message : string) (supplied : option string) (w : World)
    (g : Graph) (sid : string) :
  create_agent_graph (_checkpointer w) = Return g ->
  (or_str_uuid4 supplied w).1 = Return sid ->
  calls (chat_stream message supplied w).2 =
  calls w ++ [CreateAgentGraph (_checkpointer w);
              StreamAgentResponse g (make_initial_state message sid) (make_config sid)].
Proof.
  intros Hg Hsid. unfold chat_stream. rewrite event_generator_run. cbv zeta. rewrite Hg.
  rewrite <- (or_str_uuid4_after_call _ (CreateAgentGraph (_checkpointer w))) in Hsid.
  destruct (or_str_uuid4_returns supplied
              (with_call (CreateAgentGraph (_checkpointer w)) w))
    as (sid' & w2 & Hrun & _ & Hcalls & _).
  rewrite Hrun in Hsid |- *. simpl in Hsid. injection Hsid as ->.
  destruct (failure_of _) as [e|]; [destruct (is_Exception e)|];
    simpl; rewrite Hcalls; simpl; rewrite <- app_assoc; reflexivity.
Qed.

Lemma chat_stream_calls_no_graph (message : string) (supplied : option string)
    (w : World) (e : exn) :
  create_agent_graph (_checkpointer w) = Raise e ->
  calls (chat_stream message supplied w).2 = calls w ++ [CreateAgentGraph (_checkpointer w)].
Proof.
  intros Hg. unfold chat_stream. rewrite event_generator_run. cbv zeta. rewrite Hg.
  destruct (is_Exception e); reflexivity.
Qed.

Lemma coherent_invocations (g : Graph) (message sid : string) (cp : option BaseCheckpointSaver) :
  Forall (coherent sid)
    [CreateAgentGraph cp; AInvoke g (make_initial_state message sid) (make_config sid)]
  /\ Forall (coherent sid)
    [CreateAgentGraph cp; StreamAgentResponse g (make_initial_state message sid) (make_config sid)].
Proof.
  split; repeat constructor; simpl;
    auto using state_session_id_initial, config_thread_id_make.
Qed.

(** C7.  Session-identifier coherence: each request has one session
    identifier [sid]; every invocation of the graph the request makes
    carries [sid] both as the [session_id] of the initial state and as
    the [thread_id] of the thread configuration, the batch response
    returns [sid], and at most one identifier is drawn per request. *)
Theorem session_id_coherence (chat_request : ChatRequest.t) (message : string)
    (supplied : option string) (w : World) :
  (exists sid new,
      calls (chat chat_request w).2 = calls w ++ new
      /\ Forall (coherent sid) new
      /\ (length new <= 2)%nat
      /\ (urandom_draws (chat chat_request w).2 <= S (urandom_draws w))%nat
      /\ forall r, (chat chat_request w).1 = Return r -> ChatResponse.session_id r = sid)
  /\ (exists sid new,
      calls (chat_stream message supplied w).2 = calls w ++ new
      /\ Forall (coherent sid) new
      /\ (length new <= 2)%nat
      /\ (urandom_draws (chat_stream message supplied w).2 <= S (urandom_draws w))%nat).
Proof.
  split.
  - destruct (or_str_uuid4_total (ChatRequest.session_id chat_request) w) as [sid Hsid].
    exists sid.
    assert (Hdraws : (urandom_draws (chat chat_request w).2 <= S (urandom_draws w))%nat).
    { rewrite chat_run. cbv zeta.
      destruct (create_agent_graph (_checkpointer w)) as [g|e];
        [|destruct (is_Exception e); simpl; lia].
      destruct (ChatRequest.session_id chat_request) as [[|c s]|]; simpl;
        (destruct (ainvoke g _ _) as [result|e];
         [destruct (shape_response result _ module_init).1 as [r|e]|];
         try destruct (is_Exception e); simpl; lia). }
    destruct (create_agent_graph (_checkpointer w)) as [g|e] eqn:Hg.
    + eexists. split; [exact (chat_calls _ _ _ _ Hg Hsid)|].
      split; [apply coherent_invocations|]. split; [simpl; lia|].
      split; [exact Hdraws|].
      intros r. apply chat_response_session_id. exact Hsid.
    + eexists. split; [exact (chat_calls_no_graph _ _ _ Hg)|].
      split; [repeat constructor|]. split; [simpl; lia|].
      split; [exact Hdraws|].
      intros r. apply chat_response_session_id. exact Hsid.
  - destruct (or_str_uuid4_total supplied w) as [sid Hsid].
    exists sid.
    assert (Hdraws : (urandom_draws (chat_stream message supplied w).2
                      <= S (urandom_draws w))%nat).
    { unfold chat_stream. rewrite event_generator_run. cbv zeta.
      destruct (create_agent_graph (_checkpointer w)) as [g|e];
        [|destruct (is_Exception e); simpl; lia].
      destruct supplied as [[|c s]|]; simpl;
        (destruct (failure_of _) as [e|]; [destruct (is_Exception e)|]; simpl; lia). }
    destruct (create_agent_graph (_checkpointer w)) as [g|e] eqn:Hg.
    + eexists. split; [exact (chat_stream_calls _ _ _ _ _ Hg Hsid)|].
      split; [apply coherent_invocations|]. split; [simpl; lia|]. exact Hdraws.
    + eexists. split; [exact (chat_stream_calls_no_graph _ _ _ _ Hg)|].
      split; [repeat constructor|]. split; [simpl; lia|]. exact Hdraws.
Qed.

(** C9.  Empty-message acceptance: the batch handler does not look at
    the message.  With an empty message it never answers HTTP 400, and
    once the graph is built it invokes it on an initial state whose
    only message is the empty human message. *)
Theorem empty_message_accepted (chat_request : ChatRequest.t) (w : World) :
  ChatRequest.message chat_request = ""%string ->
  (forall detail, (chat chat_request w).1 <> Raise (HTTPException 400 detail))
  /\ (forall g, create_agent_graph (_checkpointer w) = Return g ->
      exists sid,
        last (calls (chat chat_request w).2)
        = Some (AInvoke g (make_initial_state "" sid) (make_config sid))
        /\ make_initial_state "" sid !! "messages" = Some (VMessages [HumanMessage ""])).
Proof.
  intros Hmsg. split.
  - intros detail Hout.
    destruct (chat_outcome_cases chat_request w) as [[r Hr]|[[d Hd]|[e [He Hbase]]]];
      rewrite Hout in *; try discriminate.
    injection He as <-. discriminate Hbase.
  - intros g Hg.
    destruct (or_str_uuid4_total (ChatRequest.session_id chat_request) w) as [sid Hsid].
    exists sid. split; [|apply state_messages_initial].
    rewrite (chat_calls _ _ _ _ Hg Hsid), Hmsg.
    change [CreateAgentGraph (_checkpointer w);
            AInvoke g (make_initial_state "" sid) (make_config sid)]
      with ([CreateAgentGraph (_checkpointer w)]
            ++ [AInvoke g (make_initial_state "" sid) (make_config sid)]).
    rewrite app_assoc. apply last_snoc.
Qed.

(** ** The streaming handler: claims *)

(** C6.  Streaming order preservation: when the event source of the
    request ends without failure, the frames sent are exactly its
    events, each once and in the order produced, nothing is logged and
    the generator ends normally. *)
Theorem stream_order_preserved (message : string) (supplied : option string)
    (w : World) (g : Graph) (sid : string) :
  create_agent_graph (_checkpointer w) = Return g ->
  (or_str_uuid4 supplied w).1 = Return sid ->
  let src := stream_agent_response g (make_initial_state message sid) (make_config sid) in
  failure_of src = None ->
  (chat_stream message supplied w).1 = Return tt
  /\ sent (chat_stream message supplied w).2 = sent w ++ events_of src
  /\ log (chat_stream message supplied w).2 = log w.
Proof.
  intros Hg Hsid src Hok. subst src.
  unfold chat_stream. rewrite event_generator_run. cbv zeta. rewrite Hg.
  rewrite <- (or_str_uuid4_after_call _ (CreateAgentGraph (_checkpointer w))) in Hsid.
  destruct (or_str_uuid4_returns supplied
              (with_call (CreateAgentGraph (_checkpointer w)) w))
    as (sid' & w2 & Hrun & _ & _ & Hlog & Hsent).
  rewrite Hrun in Hsid |- *. simpl in Hsid. injection Hsid as ->.
  rewrite Hok. simpl. rewrite Hlog, Hsent. auto.
Qed.

Lemma error_frame_sse (e : exn) : error_frame e = sse_frame "error" (str_exn e).
Proof. reflexivity. Qed.

(** C2.  Streaming failure semantics, as amended: when the event source
    raises an instance of [Exception] after any number of events, none
    included, the strings yielded are the events produced before the
    failure followed by the one frame [event: error], [data: str(e)],
    and the generator then ends normally: nothing follows the error
    frame.  An exception outside [Exception] is not caught: it ends the
    generator after the events already yielded, without an error
    frame. *)
Theorem stream_failure_single_error_frame (message : string) (supplied : option string)
    (w : World) (g : Graph) (sid : string) (e : exn) :
  create_agent_graph (_checkpointer w) = Return g ->
  (or_str_uuid4 supplied w).1 = Return sid ->
  let src := stream_agent_response g (make_initial_state message sid) (make_config sid) in
  failure_of src = Some e ->
  if is_Exception e
  then (chat_stream message supplied w).1 = Return tt
       /\ sent (chat_stream message supplied w).2
          = sent w ++ events_of src ++ [sse_frame "error" (str_exn e)]
  else (chat_stream message supplied w).1 = Raise e
       /\ sent (chat_stream message supplied w).2 = sent w ++ events_of src.
Proof.
  intros Hg Hsid src Hfail. subst src.
  unfold chat_stream. rewrite event_generator_run. cbv zeta. rewrite Hg.
  rewrite <- (or_str_uuid4_after_call _ (CreateAgentGraph (_checkpointer w))) in Hsid.
  destruct (or_str_uuid4_returns supplied
              (with_call (CreateAgentGraph (_checkpointer w)) w))
    as (sid' & w2 & Hrun & _ & _ & _ & Hsent).
  rewrite Hrun in Hsid |- *. simpl in Hsid. injection Hsid as ->.
  rewrite Hfail. destruct (is_Exception e); simpl; rewrite Hsent.
  - rewrite <- error_frame_sse. simpl. rewrite <- app_assoc. auto.
  - auto.
Qed.

(** X13.  A failure while the graph is built, before any event source
    exists, is handled the same way: the error frame alone is sent and
    the generator ends normally. *)
Lemma stream_failure_before_source (message : string) (supplied : option string)
    (w : World) (e : exn) :
  create_agent_graph (_checkpointer w) = Raise e ->
  is_Exception e = true ->
  (chat_stream message supplied w).1 = Return tt
  /\ sent (chat_stream message supplied w).2 = sent w ++ [error_frame e].
Proof.
  intros Hg Hexc. unfold chat_stream. rewrite event_generator_run. cbv zeta.
  rewrite Hg, Hexc. auto.
Qed.

(** An exception outside [Exception] is not turned into a frame. *)
Lemma stream_base_exception_propagates (message : string) (supplied : option string)
    (w : World) (g : Graph) (sid : string) (e : exn) :
  create_agent_graph (_checkpointer w) = Return g ->
  (or_str_uuid4 supplied w).1 = Return sid ->
  failure_of (stream_agent_response g (make_initial_state message sid) (make_config sid))
    = Some e ->
  is_Exception e = false ->
  (chat_stream message supplied w).1 = Raise e.
Proof.
  intros Hg Hsid Hfail Hexc.
  unfold chat_stream. rewrite event_generator_run. cbv zeta. rewrite Hg.
  rewrite <- (or_str_uuid4_after_call _ (CreateAgentGraph (_checkpointer w))) in Hsid.
  destruct (or_str_uuid4 _ (with_call _ w)) as [[sid'|e'] w2]; simpl in Hsid;
    [|discriminate].
  injection Hsid as ->. rewrite Hfail, Hexc. reflexivity.
Qed.

(** ** The checkpointer *)

Lemma chat_checkpointer (chat_request : ChatRequest.t) (w : World) :
  _checkpointer (chat chat_request w).2 = _checkpointer w.
Proof.
  rewrite chat_run. cbv zeta.
  destruct (create_agent_graph (_checkpointer w)) as [g|e];
    [|destruct (is_Exception e); reflexivity].
  destruct (or_str_uuid4_returns (ChatRequest.session_id chat_request)
              (with_call (CreateAgentGraph (_checkpointer w)) w))
    as (sid & w2 & Hrun & Hcp & _).
  rewrite Hrun.
  destruct (ainvoke g _ _) as [result|e];
    [destruct (shape_response result sid module_init).1 as [r|e]|];
    try destruct (is_Exception e); simpl; exact Hcp.
Qed.

Lemma chat_stream_checkpointer (message : string) (supplied : option string) (w : World) :
  _checkpointer (chat_stream message supplied w).2 = _checkpointer w.
Proof.
  unfold chat_stream. rewrite event_generator_run. cbv zeta.
  destruct (create_agent_graph (_checkpointer w)) as [g|e];
    [|destruct (is_Exception e); reflexivity].
  destruct (or_str_uuid4_returns supplied
              (with_call (CreateAgentGraph (_checkpointer w)) w))
    as (sid & w2 & Hrun & Hcp & _).
  rewrite Hrun.
  destruct (failure_of _) as [e|]; [destruct (is_Exception e)|]; simpl; exact Hcp.
Qed.

Lemma lifespan_startup_frame (w : World) :
  _checkpointer (lifespan_startup w).2 = _checkpointer w
  /\ calls (lifespan_startup w).2 = calls w.
Proof.
  unfold lifespan_startup. rewrite bind_run. unfold lift.
  destruct (postgres_setup _); split; reflexivity.
Qed.

(** A request adds calls that pass on the value of [_checkpointer]. *)
Lemma serve_calls (rq : request) (w : World) :
  exists new,
    calls (serve rq w) = calls w ++ new
    /\ (_checkpointer w = None -> Forall without_saver new).
Proof.
  destruct rq as [chat_request|message supplied]; simpl.
  - destruct (or_str_uuid4_total (ChatRequest.session_id chat_request) w) as [sid Hsid].
    destruct (create_agent_graph (_checkpointer w)) as [g|e] eqn:Hg.
    + eexists. split; [exact (chat_calls _ _ _ _ Hg Hsid)|].
      intros Hnone. repeat constructor. exact Hnone.
    + eexists. split; [exact (chat_calls_no_graph _ _ _ Hg)|].
      intros Hnone. repeat constructor. exact Hnone.
  - destruct (or_str_uuid4_total supplied w) as [sid Hsid].
    destruct (create_agent_graph (_checkpointer w)) as [g|e] eqn:Hg.
    + eexists. split; [exact (chat_stream_calls _ _ _ _ _ Hg Hsid)|].
      intros Hnone. repeat constructor. exact Hnone.
    + eexists. split; [exact (chat_stream_calls_no_graph _ _ _ _ Hg)|].
      intros Hnone. repeat constructor. exact Hnone.
Qed.

(** C8.  No-op persistence: in every state the process can reach
    (import, start-up, any sequence of batch and streaming requests)
    [get_checkpointer] answers [None], the global [_checkpointer] is
    [None], and every graph built so far was built with
    [checkpointer=None]. *)
Theorem checkpointer_always_none (w : World) :
  reachable w ->
  (get_checkpointer w).1 = Return None
  /\ _checkpointer w = None
  /\ Forall without_saver (calls w).
Proof.
  intros Hreach. split; [reflexivity|].
  induction Hreach as [|w Hreach [IHcp IHcalls]|rq w Hreach [IHcp IHcalls]].
  - split; [reflexivity | constructor].
  - destruct (lifespan_startup_frame w) as [Hcp Hcalls].
    rewrite Hcp, Hcalls. auto.
  - split.
    + destruct rq; simpl;
        [rewrite chat_checkpointer | rewrite chat_stream_checkpointer]; exact IHcp.
    + destruct (serve_calls rq w) as (new & Hcalls & Hnew).
      rewrite Hcalls. apply Forall_app. auto.
Qed.

(** ** Further properties of the batch handler *)

(** The state in which the batch handler invokes the graph: the log is
    still the one it started with. *)
Lemma chat_invoked (chat_request : ChatRequest.t) (w : World) (g : Graph) (sid : string) :
  create_agent_graph (_checkpointer w) = Return g ->
  (or_str_uuid4 (ChatRequest.session_id chat_request) w).1 = Return sid ->
  exists w2,
    or_str_uuid4 (ChatRequest.session_id chat_request)
      (with_call (CreateAgentGraph (_checkpointer w)) w) = (Return sid, w2)
    /\ log w2 = log w /\ sent w2 = sent w.
Proof.
  intros Hg Hsid.
  rewrite <- (or_str_uuid4_after_call _ (CreateAgentGraph (_checkpointer w))) in Hsid.
  destruct (or_str_uuid4_returns (ChatRequest.session_id chat_request)
              (with_call (CreateAgentGraph (_checkpointer w)) w))
    as (sid' & w2 & Hrun & _ & _ & Hlog & Hsent).
  rewrite Hrun in Hsid. simpl in Hsid. injection Hsid as ->.
  exists w2. auto.
Qed.

(** X1.  Upstream failure: when the invocation of the graph raises an
    [Exception], the handler raises HTTP 500 with the text of that
    exception, logs that text once, and has invoked the graph once: no
    retry. *)
Theorem chat_upstream_failure (chat_request : ChatRequest.t) (w : World)
    (g : Graph) (sid : string) (e : exn) :
  create_agent_graph (_checkpointer w) = Return g ->
  (or_str_uuid4 (ChatRequest.session_id chat_request) w).1 = Return sid ->
  ainvoke g (make_initial_state (ChatRequest.message chat_request) sid) (make_config sid)
    = Raise e ->
  is_Exception e = true ->
  (chat chat_request w).1 = Raise (HTTPException 500 (str_exn e))
  /\ log (chat chat_request w).2 = log w ++ ["Error in chat endpoint: " +:+ str_exn e]
  /\ calls (chat chat_request w).2
     = calls w ++ [CreateAgentGraph (_checkpointer w);
                   AInvoke g (make_initial_state (ChatRequest.message chat_request) sid)
                     (make_config sid)].
Proof.
  intros Hg Hsid Hres Hexc.
  split; [|split; [|exact (chat_calls _ _ _ _ Hg Hsid)]].
  - rewrite chat_run. cbv zeta. rewrite Hg.
    destruct (chat_invoked _ _ _ _ Hg Hsid) as (w2 & Hrun & _).
    rewrite Hrun, Hres, Hexc. reflexivity.
  - rewrite chat_run. cbv zeta. rewrite Hg.
    destruct (chat_invoked _ _ _ _ Hg Hsid) as (w2 & Hrun & Hlog & _).
    rewrite Hrun, Hres, Hexc. simpl. rewrite Hlog. reflexivity.
Qed.

(** X2.  When building the graph raises an [Exception], the handler
    raises HTTP 500 with its text and logs it; the graph is never
    invoked and no identifier is drawn. *)
Theorem chat_graph_failure (chat_request : ChatRequest.t) (w : World) (e : exn) :
  create_agent_graph (_checkpointer w) = Raise e ->
  is_Exception e = true ->
  (chat chat_request w).1 = Raise (HTTPException 500 (str_exn e))
  /\ log (chat chat_request w).2 = log w ++ ["Error in chat endpoint: " +:+ str_exn e]
  /\ calls (chat chat_request w).2 = calls w ++ [CreateAgentGraph (_checkpointer w)]
  /\ urandom_draws (chat chat_request w).2 = urandom_draws w.
Proof.
  intros Hg Hexc. rewrite chat_run. cbv zeta. rewrite Hg, Hexc. auto.
Qed.

(** X3.  The only [Exception]s that leave [routes.chat] are the
    limiter's 429, when the call is refused, and an HTTP 500 otherwise:
    a status code raised further down (a 404 from a tool, a 422, ...)
    never reaches the caller as such. *)
Theorem chat_raises_500_or_429 (verdict : option string) (chat_request : ChatRequest.t)
    (w : World) (e : exn) :
  (limited_chat verdict chat_request w).1 = Raise e ->
  is_Exception e = true ->
  match verdict with
  | None => exists detail, e = HTTPException 500 detail
  | Some detail => e = HTTPException 429 detail
  end.
Proof.
  unfold limited_chat, limited. destruct verdict as [detail|]; simpl.
  - intros Hout _. injection Hout as <-. reflexivity.
  - intros Hout Hexc.
    destruct (chat_outcome_cases chat_request w) as [[r Hr]|[[d Hd]|[e' [He Hbase]]]];
      rewrite Hout in *.
    + discriminate Hr.
    + injection Hd as ->. eauto.
    + injection He as <-. rewrite Hexc in Hbase. discriminate Hbase.
Qed.

(** X4.  An exception outside [Exception] raised by the invocation
    (a cancellation) leaves the handler as it is, and nothing is
    logged. *)
Theorem chat_base_exception_propagates (chat_request : ChatRequest.t) (w : World)
    (g : Graph) (sid : string) (e : exn) :
  create_agent_graph (_checkpointer w) = Return g ->
  (or_str_uuid4 (ChatRequest.session_id chat_request) w).1 = Return sid ->
  ainvoke g (make_initial_state (ChatRequest.message chat_request) sid) (make_config sid)
    = Raise e ->
  is_Exception e = false ->
  (chat chat_request w).1 = Raise e
  /\ log (chat chat_request w).2 = log w.
Proof.
  intros Hg Hsid Hres Hexc. rewrite chat_run. cbv zeta. rewrite Hg.
  destruct (chat_invoked _ _ _ _ Hg Hsid) as (w2 & Hrun & Hlog & _).
  rewrite Hrun, Hres, Hexc. simpl. auto.
Qed.

(** X5.  The log follows the outcome of [routes.chat]: a response logs
    nothing; a refusal by the limiter is a 429 and logs nothing; any
    other HTTP error is a 500 and is logged once, with the very detail
    the caller gets. *)
Theorem chat_logs_what_it_raises (verdict : option string)
    (chat_request : ChatRequest.t) (w : World) :
  let after := (limited_chat verdict chat_request w).2 in
  match (limited_chat verdict chat_request w).1 with
  | Return _ => log after = log w
  | Raise (HTTPException status detail) =>
      match verdict with
      | Some _ => status = 429 /\ log after = log w
      | None =>
          status = 500
          /\ log after = log w ++ ["Error in chat endpoint: " +:+ detail]
      end
  | Raise _ => log after = log w
  end.
Proof.
  cbv zeta. unfold limited_chat, limited.
  destruct verdict as [refusal|]; [simpl; auto|].
  rewrite chat_run. cbv zeta.
  destruct (create_agent_graph (_checkpointer w)) as [g|e].
  - destruct (or_str_uuid4_returns (ChatRequest.session_id chat_request)
                (with_call (CreateAgentGraph (_checkpointer w)) w))
      as (sid & w2 & Hrun & _ & _ & Hlog & _).
    rewrite Hrun.
    destruct (ainvoke g _ _) as [result|e];
      [destruct (shape_response result sid module_init).1 as [r|e]|];
      try (destruct e; simpl); simpl; rewrite Hlog; auto.
  - destruct e; simpl; auto.
Qed.

(** X7.  [uuid4] is called only when it is needed: a request draws from
    the random source exactly when the graph was built and no non-empty
    session id was supplied. *)
Theorem uuid_drawn_only_when_needed (chat_request : ChatRequest.t) (message : string)
    (supplied : option string) (w : World) :
  let drawn (given : option string) :=
    match create_agent_graph (_checkpointer w) with
    | Return _ =>
        if Py.str_truthy (default ""%string given)
        then urandom_draws w else S (urandom_draws w)
    | Raise _ => urandom_draws w
    end in
  urandom_draws (chat chat_request w).2 = drawn (ChatRequest.session_id chat_request)
  /\ urandom_draws (chat_stream message supplied w).2 = drawn supplied.
Proof.
  cbv zeta. split.
  - rewrite chat_run. cbv zeta.
    destruct (create_agent_graph (_checkpointer w)) as [g|e];
      [|destruct (is_Exception e); reflexivity].
    destruct (ChatRequest.session_id chat_request) as [[|c s]|]; simpl;
      (destruct (ainvoke g _ _) as [result|e];
       [destruct (shape_response result _ module_init).1 as [r|e]|];
       try destruct (is_Exception e); reflexivity).
  - unfold chat_stream. rewrite event_generator_run. cbv zeta.
    destruct (create_agent_graph (_checkpointer w)) as [g|e];
      [|destruct (is_Exception e); reflexivity].
    destruct supplied as [[|c s]|]; simpl;
      (destruct (failure_of _) as [e|]; [destruct (is_Exception e)|]; reflexivity).
Qed.


(** A response comes from a non-empty list of messages. *)
Lemma chat_Return_inv (chat_request : ChatRequest.t) (w : World) (r : ChatResponse.t) :
  (chat chat_request w).1 = Return r ->
  exists messages,
    messages <> []
    /\ reported_tool_calls r = concat (map tool_records messages)
    /\ (ChatResponse.tool_calls r = None <-> concat (map tool_records messages) = [])
    /\ Message.content <$> last messages = Some (ChatResponse.response r).
Proof.
  rewrite chat_run. cbv zeta.
  destruct (create_agent_graph (_checkpointer w)) as [g|e];
    [|destruct (is_Exception e); discriminate].
  destruct (or_str_uuid4 _ _) as [[sid|e] w2]; [|discriminate].
  destruct (ainvoke g _ _) as [result|e];
    [|destruct (is_Exception e); discriminate].
  unfold shape_response.
  destruct (default (VMessages []) (result !! "messages")) as [[|m ms]|[|c s]];
    simpl; try discriminate.
  destruct (last (m :: ms)) as [final_message|] eqn:Hlast; simpl; [|discriminate].
  intros Hr. injection Hr as <-. exists (m :: ms).
  split; [discriminate|]. unfold reported_tool_calls. simpl ChatResponse.tool_calls.
  rewrite extract_tool_calls_concat, Hlast.
  destruct (concat (map tool_records (m :: ms))) as [|rec recs];
    simpl; repeat split; try reflexivity; try discriminate.
Qed.

(** X8.  Every tool-call record of a response comes from a tool call of
    one of the returned messages and holds exactly two keys: ["name"],
    with the name of that tool call, and ["args"], with its arguments.
    Whatever else the tool call carries (its id, its type) is dropped,
    and a missing name or missing arguments show as [None]. *)
Theorem tool_call_records_keys (chat_request : ChatRequest.t) (w : World)
    (g : Graph) (sid : string) (result : gmap string state_value)
    (messages : list Message.t) (r : ChatResponse.t) (record : gmap string json) :
  create_agent_graph (_checkpointer w) = Return g ->
  (or_str_uuid4 (ChatRequest.session_id chat_request) w).1 = Return sid ->
  ainvoke g (make_initial_state (ChatRequest.message chat_request) sid) (make_config sid)
    = Return result ->
  result !! "messages" = Some (VMessages messages) ->
  (chat chat_request w).1 = Return r ->
  In record (reported_tool_calls r) ->
  exists msg tool_calls tool_call,
    In msg messages
    /\ Message.tool_calls msg = Some tool_calls
    /\ In tool_call tool_calls
    /\ record !! "name" = Some (default JNull (tool_call !! "name"))
    /\ record !! "args" = Some (default JNull (tool_call !! "args"))
    /\ dom record = ({[ "name"; "args" ]} : gset string).
Proof.
  intros Hg Hsid Hres Hmsgs Hr Hin.
  rewrite (chat_answered _ _ _ _ _ Hg Hsid Hres) in Hr.
  destruct (last messages) as [final_message|] eqn:Hlast.
  - rewrite (shape_response_messages _ _ _ _ Hmsgs Hlast) in Hr.
    injection Hr as <-. unfold reported_tool_calls in Hin.
    simpl ChatResponse.tool_calls in Hin.
    assert (Hin' : In record (concat (map tool_records messages))).
    { destruct (concat (map tool_records messages)); [contradiction | exact Hin]. }
    apply in_concat in Hin' as (records & Hrecs & Hrec).
    apply in_map_iff in Hrecs as (msg & <- & Hmsg).
    unfold tool_records in Hrec. apply in_map_iff in Hrec as (tool_call & <- & Htc).
    destruct (Message.tool_calls msg) as [tool_calls|] eqn:Htcs; [|contradiction].
    exists msg, tool_calls, tool_call.
    destruct (tool_call_record_reports tool_call) as (Hname & Hargs & Hdom). auto 10.
  - apply last_None in Hlast. subst messages.
    rewrite shape_response_empty in Hr by (rewrite Hmsgs; reflexivity).
    discriminate Hr.
Qed.

(** X9.  The converse of the omission rule: as soon as one message
    carries a tool call, the response has a [tool_calls] list, and that
    list is not empty. *)
Theorem tool_calls_present_when_some (chat_request : ChatRequest.t) (w : World)
    (g : Graph) (sid : string) (result : gmap string state_value)
    (messages : list Message.t) :
  create_agent_graph (_checkpointer w) = Return g ->
  (or_str_uuid4 (ChatRequest.session_id chat_request) w).1 = Return sid ->
  ainvoke g (make_initial_state (ChatRequest.message chat_request) sid) (make_config sid)
    = Return result ->
  result !! "messages" = Some (VMessages messages) ->
  Exists (fun msg => tool_records msg <> []) messages ->
  exists r records,
    (chat chat_request w).1 = Return r
    /\ ChatResponse.tool_calls r = Some records
    /\ records <> []
    /\ records = concat (map tool_records messages).
Proof.
  intros Hg Hsid Hres Hmsgs Hsome.
  assert (Hne : messages <> []).
  { intros ->. inversion Hsome. }
  destruct (last messages) as [final_message|] eqn:Hlast;
    [|apply last_None in Hlast; contradiction].
  assert (Hflat : concat (map tool_records messages) <> []).
  { clear -Hsome. induction Hsome as [m ms Hm|m ms _ IH]; simpl.
    - destruct (tool_records m); [contradiction | discriminate].
    - intros Happ. apply app_eq_nil in Happ as [_ Hrest]. contradiction. }
  rewrite (chat_answered _ _ _ _ _ Hg Hsid Hres),
    (shape_response_messages _ _ _ _ Hmsgs Hlast).
  destruct (concat (map tool_records messages)) as [|rec recs] eqn:Hc;
    [contradiction|].
  eexists _, (rec :: recs). repeat split; try reflexivity. discriminate.
Qed.

(** ** One graph per request *)

Lemma graph_builds_app (cs1 cs2 : list call) :
  graph_builds (cs1 ++ cs2) = (graph_builds cs1 + graph_builds cs2)%nat.
Proof. unfold graph_builds. rewrite List.filter_app, length_app. reflexivity. Qed.

Lemma serve_builds_one (rq : request) (w : World) :
  graph_builds (calls (serve rq w)) = S (graph_builds (calls w)).
Proof.
  destruct rq as [chat_request|message supplied]; simpl.
  - destruct (or_str_uuid4_total (ChatRequest.session_id chat_request) w) as [sid Hsid].
    destruct (create_agent_graph (_checkpointer w)) as [g|e] eqn:Hg.
    + rewrite (chat_calls _ _ _ _ Hg Hsid), graph_builds_app.
      unfold graph_builds. simpl. lia.
    + rewrite (chat_calls_no_graph _ _ _ Hg), graph_builds_app.
      unfold graph_builds. simpl. lia.
  - destruct (or_str_uuid4_total supplied w) as [sid Hsid].
    destruct (create_agent_graph (_checkpointer w)) as [g|e] eqn:Hg.
    + rewrite (chat_stream_calls _ _ _ _ _ Hg Hsid), graph_builds_app.
      unfold graph_builds. simpl. lia.
    + rewrite (chat_stream_calls_no_graph _ _ _ _ Hg), graph_builds_app.
      unfold graph_builds. simpl. lia.
Qed.

Lemma serve_limited_builds (verdict : option string) (rq : request) (w : World) :
  graph_builds (calls (serve_limited verdict rq w))
  = match verdict with
    | None => S (graph_builds (calls w))
    | Some _ => graph_builds (calls w)
    end.
Proof.
  destruct verdict as [detail|].
  - destruct rq; reflexivity.
  - rewrite <- (serve_builds_one rq w). destruct rq; reflexivity.
Qed.

(** X11.  [get_agent_graph] builds a graph on every call: after any run
    of requests, batch or streaming, failed or not, the number of graphs
    built has grown by the number of requests that the limiter let
    through.  No graph is kept from one request to the next, and a
    refused request builds none. *)
Theorem one_graph_build_per_request (rqs : list (option string * request)) :
  forall w : World,
    graph_builds (calls (serve_all_limited rqs w))
    = (graph_builds (calls w) + admitted rqs)%nat.
Proof.
  unfold admitted.
  induction rqs as [|[verdict rq] rqs IH]; intros w; simpl.
  - lia.
  - rewrite IH, serve_limited_builds. destruct verdict; simpl; lia.
Qed.


(** ** Further properties of the streaming handler *)

(** The streaming handler once the graph is built: what it sends and
    how it ends, in terms of the event source. *)
Lemma chat_stream_started (message : string) (supplied : option string) (w : World)
    (g : Graph) (sid : string) :
  create_agent_graph (_checkpointer w) = Return g ->
  (or_str_uuid4 supplied w).1 = Return sid ->
  exists w2,
    log w2 = log w /\ sent w2 = sent w
    /\ chat_stream message supplied w =
       let st := make_initial_state message sid in
       let cfg := make_config sid in
       let src := stream_agent_response g st cfg in
       let w3 := with_frames (events_of src) (with_call (StreamAgentResponse g st cfg) w2) in
       match failure_of src with
       | None => (Return tt, w3)
       | Some e =>
           if is_Exception e
           then (Return tt,
                 with_frame (error_frame e)
                   (with_log ("Error in streaming endpoint: " +:+ str_exn e) w3))
           else (Raise e, w3)
       end.
Proof.
  intros Hg Hsid. unfold chat_stream. rewrite event_generator_run. cbv zeta. rewrite Hg.
  rewrite <- (or_str_uuid4_after_call _ (CreateAgentGraph (_checkpointer w))) in Hsid.
  destruct (or_str_uuid4_returns supplied
              (with_call (CreateAgentGraph (_checkpointer w)) w))
    as (sid' & w2 & Hrun & _ & _ & Hlog & Hsent).
  rewrite Hrun in Hsid |- *. simpl in Hsid. injection Hsid as ->.
  exists w2. auto.
Qed.

(** A request whose graph was built draws from the random source when
    it was given no session id, and only then. *)
Lemma handlers_draws (chat_request : ChatRequest.t) (message : string)
    (supplied : option string) (w : World) (g : Graph) :
  create_agent_graph (_checkpointer w) = Return g ->
  urandom_draws (chat chat_request w).2
  = (if Py.str_truthy (default ""%string (ChatRequest.session_id chat_request))
     then urandom_draws w else S (urandom_draws w))
  /\ urandom_draws (chat_stream message supplied w).2
     = (if Py.str_truthy (default ""%string supplied)
        then urandom_draws w else S (urandom_draws w)).
Proof.
  intros Hg. split.
  - rewrite chat_run. cbv zeta. rewrite Hg.
    destruct (ChatRequest.session_id chat_request) as [[|c s]|]; simpl;
      (destruct (ainvoke g _ _) as [result|e];
       [destruct (shape_response result _ module_init).1 as [r|e]|];
       try destruct (is_Exception e); reflexivity).
  - unfold chat_stream. rewrite event_generator_run. cbv zeta. rewrite Hg.
    destruct supplied as [[|c s]|]; simpl;
      (destruct (failure_of _) as [e|]; [destruct (is_Exception e)|]; reflexivity).
Qed.

(** C1.  Session resolution, as amended.  Once the graph is built, the
    identifier under which either handler invokes it is the supplied one
    when that is present and non-empty, and otherwise the rendering of a
    [uuid4] made from the next draw of the random source: 36 characters
    long, different from the rendering of any draw that differs in a
    random bit, and paid for by one draw (none when an identifier was
    supplied).  A batch response returns that very identifier.  The
    streaming handler does not return it: what it sends is the events
    of the source and, after a failure, the error frame. *)
Theorem session_resolution (chat_request : ChatRequest.t) (message : string)
    (supplied : option string) (w : World) (g : Graph) :
  create_agent_graph (_checkpointer w) = Return g ->
  let draw := os_urandom (urandom_draws w) in
  let fresh := uuid.str (uuid.uuid4 draw) in
  let src sid :=
    stream_agent_response g (make_initial_state message sid) (make_config sid) in
  String.length fresh = 36%nat
  /\ (forall r n, 0 <= n < 128 -> fixed_bit n = false ->
       Z.testbit r n <> Z.testbit draw n ->
       uuid.str (uuid.uuid4 r) <> fresh)
  /\ (exists sid,
        resolved (ChatRequest.session_id chat_request) fresh sid
        /\ last (calls (chat chat_request w).2)
           = Some (AInvoke g (make_initial_state (ChatRequest.message chat_request) sid)
                     (make_config sid))
        /\ (forall r, (chat chat_request w).1 = Return r -> ChatResponse.session_id r = sid)
        /\ urandom_draws (chat chat_request w).2
           = (if Py.str_truthy (default ""%string (ChatRequest.session_id chat_request))
              then urandom_draws w else S (urandom_draws w)))
  /\ (exists sid,
        resolved supplied fresh sid
        /\ last (calls (chat_stream message supplied w).2)
           = Some (StreamAgentResponse g (make_initial_state message sid) (make_config sid))
        /\ urandom_draws (chat_stream message supplied w).2
           = (if Py.str_truthy (default ""%string supplied)
              then urandom_draws w else S (urandom_draws w))
        /\ exists tail,
            sent (chat_stream message supplied w).2 = sent w ++ events_of (src sid) ++ tail
            /\ (tail = []
                \/ exists e, failure_of (src sid) = Some e /\ tail = [error_frame e])).
Proof.
  intros Hg draw fresh src.
  destruct (handlers_draws chat_request message supplied w g Hg) as [Hdraw1 Hdraw2].
  split; [apply uuid_str_length|]. split.
  { intros r n Hn Hfree Hbit. exact (uuid4_str_distinct r draw n Hn Hfree Hbit). }
  split.
  - destruct (or_str_uuid4_total (ChatRequest.session_id chat_request) w) as [sid Hsid].
    exists sid. split; [exact (or_str_uuid4_resolved _ _ _ Hsid)|]. split.
    + rewrite (chat_calls _ _ _ _ Hg Hsid).
      change [CreateAgentGraph (_checkpointer w);
              AInvoke g (make_initial_state (ChatRequest.message chat_request) sid)
                (make_config sid)]
        with ([CreateAgentGraph (_checkpointer w)]
              ++ [AInvoke g (make_initial_state (ChatRequest.message chat_request) sid)
                    (make_config sid)]).
      rewrite app_assoc. apply last_snoc.
    + split; [|exact Hdraw1].
      intros r. apply chat_response_session_id. exact Hsid.
  - destruct (or_str_uuid4_total supplied w) as [sid Hsid].
    exists sid. split; [exact (or_str_uuid4_resolved _ _ _ Hsid)|]. split.
    + rewrite (chat_stream_calls _ _ _ _ _ Hg Hsid).
      change [CreateAgentGraph (_checkpointer w);
              StreamAgentResponse g (make_initial_state message sid) (make_config sid)]
        with ([CreateAgentGraph (_checkpointer w)]
              ++ [StreamAgentResponse g (make_initial_state message sid) (make_config sid)]).
      rewrite app_assoc. apply last_snoc.
    + split; [exact Hdraw2|]. subst src. cbv beta.
      destruct (chat_stream_started message _ _ _ _ Hg Hsid) as (w2 & _ & Hsent & ->).
      cbv zeta.
      destruct (failure_of _) as [e|] eqn:Hfail; [destruct (is_Exception e)|].
      * exists [error_frame e]. simpl. rewrite Hsent, <- app_assoc. eauto.
      * exists []. simpl. rewrite Hsent, app_nil_r. auto.
      * exists []. simpl. rewrite Hsent, app_nil_r. auto.
Qed.

(** X12.  Nothing of class [Exception] leaves the streaming handler:
    whatever the graph layer does, the generator ends normally or with
    an exception outside [Exception]. *)
Theorem stream_never_raises_Exception (message : string) (supplied : option string)
    (w : World) (e : exn) :
  (chat_stream message supplied w).1 = Raise e ->
  is_Exception e = false.
Proof.
  unfold chat_stream. rewrite event_generator_run. cbv zeta.
  destruct (create_agent_graph (_checkpointer w)) as [g|e0].
  - destruct (or_str_uuid4_returns supplied
                (with_call (CreateAgentGraph (_checkpointer w)) w))
      as (sid & w2 & Hrun & _).
    rewrite Hrun.
    destruct (failure_of _) as [e0|]; [|discriminate].
    destruct (is_Exception e0) eqn:He0; [discriminate|].
    simpl. intros Hr. injection Hr as <-. exact He0.
  - destruct (is_Exception e0) eqn:He0; [discriminate|].
    simpl. intros Hr. injection Hr as <-. exact He0.
Qed.

(** X14.  A cancellation of the event source (an exception outside
    [Exception]) ends the generator with that exception: the events
    produced before it were sent, no error frame follows and nothing is
    logged. *)
Theorem stream_cancelled_delivers_prefix (message : string) (supplied : option string)
    (w : World) (g : Graph) (sid : string) (e : exn) :
  create_agent_graph (_checkpointer w) = Return g ->
  (or_str_uuid4 supplied w).1 = Return sid ->
  let src := stream_agent_response g (make_initial_state message sid) (make_config sid) in
  failure_of src = Some e ->
  is_Exception e = false ->
  (chat_stream message supplied w).1 = Raise e
  /\ sent (chat_stream message supplied w).2 = sent w ++ events_of src
  /\ log (chat_stream message supplied w).2 = log w.
Proof.
  intros Hg Hsid src Hfail Hexc. subst src.
  destruct (chat_stream_started message _ _ _ _ Hg Hsid) as (w2 & Hlog & Hsent & ->).
  cbv zeta. rewrite Hfail, Hexc. simpl. rewrite Hlog, Hsent. auto.
Qed.

(** X15.  Whatever happens to the event source, every event it produced
    is sent, in order, and at most one frame follows them: the error
    frame of the failure, if there was one. *)
Theorem stream_frames_extend_events (message : string) (supplied : option string)
    (w : World) (g : Graph) (sid : string) :
  create_agent_graph (_checkpointer w) = Return g ->
  (or_str_uuid4 supplied w).1 = Return sid ->
  let src := stream_agent_response g (make_initial_state message sid) (make_config sid) in
  exists tail,
    sent (chat_stream message supplied w).2 = sent w ++ events_of src ++ tail
    /\ (tail = [] \/ exists e, failure_of src = Some e /\ tail = [error_frame e]).
Proof.
  intros Hg Hsid src. subst src.
  destruct (chat_stream_started message _ _ _ _ Hg Hsid) as (w2 & Hlog & Hsent & ->).
  cbv zeta.
  destruct (failure_of _) as [e|] eqn:Hfail; [destruct (is_Exception e)|].
  - exists [error_frame e]. simpl. rewrite Hsent, <- app_assoc. eauto.
  - exists []. simpl. rewrite Hsent, app_nil_r. auto.
  - exists []. simpl. rewrite Hsent, app_nil_r. auto.
Qed.

(** X16.  A failure of the event source is logged once, with the text
    that the error frame carries. *)
Theorem stream_failure_logged (message : string) (supplied : option string)
    (w : World) (g : Graph) (sid : string) (e : exn) :
  create_agent_graph (_checkpointer w) = Return g ->
  (or_str_uuid4 supplied w).1 = Return sid ->
  failure_of (stream_agent_response g (make_initial_state message sid) (make_config sid))
    = Some e ->
  is_Exception e = true ->
  log (chat_stream message supplied w).2
  = log w ++ ["Error in streaming endpoint: " +:+ str_exn e].
Proof.
  intros Hg Hsid Hfail Hexc.
  destruct (chat_stream_started message _ _ _ _ Hg Hsid) as (w2 & Hlog & Hsent & ->).
  cbv zeta. rewrite Hfail, Hexc. simpl. rewrite Hlog. reflexivity.
Qed.


(** ** Splitting and replacing *)

Lemma append_cons (c : ascii) (s t : string) : String c s +:+ t = String c (s +:+ t).
Proof. reflexivity. Qed.

Lemma append_nil_l (t : string) : "" +:+ t = t.
Proof. reflexivity. Qed.

Lemma char_in_app (c : ascii) (s1 s2 : string) :
  Py.char_in c (s1 +:+ s2) = Py.char_in c s1 || Py.char_in c s2.
Proof.
  induction s1 as [|c1 s1 IH]; rewrite ?append_cons, ?append_nil_l; simpl;
    [reflexivity|].
  destruct (Ascii.eqb c1 c); [reflexivity | exact IH].
Qed.

Lemma split_on_nonempty (sep : ascii) (s : string) : Py.split_on sep s <> [].
Proof.
  destruct s as [|c s]; simpl; [discriminate|].
  destruct (Ascii.eqb c sep); [discriminate|].
  destruct (Py.split_on sep s); discriminate.
Qed.

(** Without the separator there is one piece, the string itself. *)
Lemma split_on_absent (sep : ascii) (s : string) :
  Py.char_in sep s = false -> Py.split_on sep s = [s].
Proof.
  induction s as [|c s IH]; simpl; [reflexivity|].
  destruct (Ascii.eqb c sep); [discriminate|].
  intros Hs. rewrite (IH Hs). reflexivity.
Qed.

(** The first piece ends at the first separator. *)
Lemma split_on_first (sep : ascii) (s1 s2 : string) :
  Py.char_in sep s1 = false ->
  Py.split_on sep (s1 +:+ String sep s2) = s1 :: Py.split_on sep s2.
Proof.
  induction s1 as [|c s1 IH]; rewrite ?append_cons, ?append_nil_l; simpl.
  - intros _. rewrite Ascii.eqb_refl. reflexivity.
  - destruct (Ascii.eqb c sep); [discriminate|].
    intros Hs. rewrite (IH Hs). reflexivity.
Qed.

Lemma split_on_present (sep : ascii) (s : string) :
  Py.char_in sep s = true -> (2 <= length (Py.split_on sep s))%nat.
Proof.
  induction s as [|c s IH]; simpl; [discriminate|].
  destruct (Ascii.eqb c sep).
  - intros _. pose proof (split_on_nonempty sep s) as Hne.
    destruct (Py.split_on sep s); [contradiction | simpl; lia].
  - intros Hs. specialize (IH Hs).
    destruct (Py.split_on sep s); simpl in *; lia.
Qed.

Lemma string_app_assoc (s1 s2 s3 : string) :
  (s1 +:+ s2) +:+ s3 = s1 +:+ (s2 +:+ s3).
Proof.
  induction s1 as [|c s1 IH]; rewrite ?append_cons, ?append_nil_l;
    [reflexivity | f_equal; exact IH].
Qed.

Lemma prefix_app (s1 s2 : string) : String.prefix s1 (s1 +:+ s2) = true.
Proof.
  induction s1 as [|c s1 IH]; rewrite ?append_cons, ?append_nil_l; simpl.
  - destruct s2; reflexivity.
  - destruct (ascii_dec c c) as [_|Hne]; [exact IH | contradiction].
Qed.

Lemma replace_from_skip (old new : string) (s1 s2 : string) :
  Py.replace_from old new (String.length s1) (s1 +:+ s2)
  = Py.replace_from old new O s2.
Proof.
  induction s1 as [|c s1 IH]; rewrite ?append_cons, ?append_nil_l; simpl;
    [|exact IH].
  destruct s2; reflexivity.
Qed.

(** A string that does not hold the first character of [old] holds no
    occurrence of [old]: [replace] returns it as it is. *)
Lemma replace_absent (c : ascii) (old' new s : string) :
  Py.char_in c s = false -> Py.replace s (String c old') new = s.
Proof.
  unfold Py.replace. induction s as [|a s IH]; simpl; [reflexivity|].
  destruct (Ascii.eqb_spec a c) as [->|Hne]; [discriminate|].
  intros Hs. destruct (ascii_dec c a) as [Heq|_]; [congruence|].
  rewrite (IH Hs). reflexivity.
Qed.

(** The first occurrence of [old] is replaced, and the search goes on
    after it. *)
Lemma replace_first (c : ascii) (old' new s1 s2 : string) :
  Py.char_in c s1 = false ->
  Py.replace (s1 +:+ String c old' +:+ s2) (String c old') new
  = s1 +:+ new +:+ Py.replace s2 (String c old') new.
Proof.
  unfold Py.replace. induction s1 as [|a s1 IH].
  - intros _. rewrite !append_nil_l, append_cons.
    change (Py.replace_from (String c old') new 0 (String c (old' +:+ s2)))
      with (if String.prefix (String c old') (String c (old' +:+ s2))
            then new +:+ Py.replace_from (String c old') new
                           (Nat.pred (String.length (String c old'))) (old' +:+ s2)
            else String c (Py.replace_from (String c old') new 0 (old' +:+ s2))).
    rewrite <- (append_cons c old' s2), prefix_app.
    simpl Nat.pred. rewrite replace_from_skip. reflexivity.
  - rewrite (append_cons a s1), (append_cons a s1). simpl.
    destruct (Ascii.eqb_spec a c) as [->|Hne]; [discriminate|].
    intros Hs. destruct (ascii_dec c a) as [Heq|_]; [congruence|].
    rewrite (IH Hs). reflexivity.
Qed.

(** X17.  The error frame of an exception whose text holds no line
    break is one well-formed event: split at the line breaks it is the
    line [event: error], the line [data: ] with the text, and the blank
    line that ends the event. *)
Theorem error_frame_lines (e : exn) :
  Py.char_in "010" (str_exn e) = false ->
  Py.split_on "010" (error_frame e)
  = ["event: error"; "data: " +:+ str_exn e; ""; ""]%string.
Proof.
  intros Hline. unfold error_frame.
  rewrite split_on_first by reflexivity.
  rewrite <- string_app_assoc.
  rewrite split_on_first by (rewrite char_in_app, Hline; reflexivity).
  reflexivity.
Qed.

(** ** Start-up *)

(** X19.  When the PostgreSQL saver cannot be opened or set up,
    start-up fails with that exception and nothing is stored in
    [app.state]: the state is as it was. *)
Theorem lifespan_startup_failure (w : World) (e : exn) :
  postgres_setup (Py.replace database_url "+asyncpg" "") = Raise e ->
  lifespan_startup w = (Raise e, w).
Proof.
  intros Hdown. unfold lifespan_startup. rewrite bind_run. unfold lift.
  rewrite Hdown. reflexivity.
Qed.

(** X20.  For a database URL [scheme+asyncpg rest] with no other [+],
    the saver is opened on [scheme rest] and that saver is what
    [app.state.checkpointer] holds after start-up; nothing else
    changes. *)
Theorem lifespan_strips_driver (w : World) (scheme rest : string) :
  database_url = (scheme +:+ "+asyncpg" +:+ rest)%string ->
  Py.char_in "+" scheme = false ->
  Py.char_in "+" rest = false ->
  postgres_setup (scheme +:+ rest) = Return tt ->
  lifespan_startup w
  = (Return tt,
     with_app_state_checkpointer (Some (AsyncPostgresSaver (scheme +:+ rest))) w).
Proof.
  intros Hurl Hscheme Hrest Hup.
  assert (Hconv : Py.replace database_url "+asyncpg" "" = (scheme +:+ rest)%string).
  { rewrite Hurl. rewrite (replace_first "+" "asyncpg" "" scheme rest Hscheme).
    rewrite (replace_absent "+" "asyncpg" "" rest Hrest). reflexivity. }
  unfold lifespan_startup. rewrite bind_run. unfold lift. rewrite Hconv, Hup.
  reflexivity.
Qed.

(** X21.  A database URL without any [+] names no driver: the saver is
    opened on the URL as it is. *)
Theorem lifespan_plain_url (w : World) :
  Py.char_in "+" database_url = false ->
  postgres_setup database_url = Return tt ->
  lifespan_startup w
  = (Return tt, with_app_state_checkpointer (Some (AsyncPostgresSaver database_url)) w).
Proof.
  intros Hplain Hup.
  unfold lifespan_startup. rewrite bind_run. unfold lift.
  rewrite (replace_absent "+" "asyncpg" "" database_url Hplain), Hup. reflexivity.
Qed.

(** X22.  The database label of the banner never fails: the test
    ['@' in url] makes the index [1] safe. *)
Theorem database_label_total (checkpointer_url : string) :
  exists label, database_label checkpointer_url = Return label.
Proof.
  unfold database_label.
  destruct (Py.char_in "@" checkpointer_url) eqn:Hat; [|eauto].
  pose proof (split_on_present _ _ Hat) as Hlen.
  destruct (Py.split_on "@" checkpointer_url) as [|p1 [|p2 ps]]; simpl in Hlen; try lia.
  simpl. eauto.
Qed.

(** X23.  For a URL with one [@], the label is what follows it (host,
    port, database): the user and the password, which come before, are
    not printed. *)
Theorem database_label_after_credentials (credentials location : string) :
  Py.char_in "@" credentials = false ->
  Py.char_in "@" location = false ->
  database_label (credentials +:+ "@" +:+ location) = Return location.
Proof.
  intros Hcred Hloc. unfold database_label.
  change ("@" +:+ location)%string with (String "@" location).
  rewrite char_in_app. simpl Py.char_in at 2. rewrite orb_true_r.
  rewrite (split_on_first "@" credentials location Hcred).
  rewrite (split_on_absent "@" location Hloc). reflexivity.
Qed.

End Routes.

Arguments _checkpointer {Graph} w.
Arguments app_state_checkpointer {Graph} w.
Arguments urandom_draws {Graph} w.
Arguments calls {Graph} w.
Arguments log {Graph} w.
Arguments sent {Graph} w.
Arguments CreateAgentGraph {Graph} checkpointer.
Arguments AInvoke {Graph} agent_graph initial_state config.
Arguments StreamAgentResponse {Graph} agent_graph initial_state config.
Arguments without_saver {Graph} c.
Arguments with_app_state_checkpointer {Graph} v w.
Arguments graph_builds {Graph} cs.

(** ** Tracing set-up *)

Lemma lower_true : Py.lower "true" = "true"%string.
Proof. reflexivity. Qed.

Lemma lower_false : Py.lower "false" = "false"%string.
Proof. reflexivity. Qed.

Lemma tracing_off_environ (settings : tracing.Settings) (p : tracing.Process) :
  tracing.environ (tracing.tracing_off settings p)
  = <["LANGCHAIN_TRACING_V2" := "false"%string]> (tracing.environ p).
Proof.
  unfold tracing.tracing_off. cbv zeta.
  destruct (negb (tracing.langsmith_enabled settings)); [reflexivity|].
  destruct (negb (Py.str_truthy _)); reflexivity.
Qed.

(** What [setup_langsmith] leaves in the environment, by cases. *)
Lemma setup_langsmith_environ (settings : tracing.Settings) (p : tracing.Process) :
  tracing.environ (tracing.setup_langsmith settings p)
  = match tracing.langsmith_api_key settings with
    | Some api_key =>
        if tracing.langsmith_enabled settings && Py.str_truthy api_key
        then <["LANGCHAIN_PROJECT" := tracing.langsmith_project settings]>
               (<["LANGCHAIN_API_KEY" := api_key]>
                  (<["LANGCHAIN_TRACING_V2" := "true"%string]> (tracing.environ p)))
        else <["LANGCHAIN_TRACING_V2" := "false"%string]> (tracing.environ p)
    | None => <["LANGCHAIN_TRACING_V2" := "false"%string]> (tracing.environ p)
    end.
Proof.
  unfold tracing.setup_langsmith.
  destruct (tracing.langsmith_api_key settings) as [api_key|];
    [|apply tracing_off_environ].
  destruct (tracing.langsmith_enabled settings && Py.str_truthy api_key);
    [reflexivity | apply tracing_off_environ].
Qed.

(** X24.  [is_langsmith_enabled] after [setup_langsmith] tells whether
    the settings ask for tracing and give a key, whatever the
    environment held before: a stale [LANGCHAIN_TRACING_V2=TRUE] does
    not survive a set-up without a key. *)
Theorem setup_then_is_enabled (settings : tracing.Settings) (p : tracing.Process) :
  tracing.is_langsmith_enabled (tracing.setup_langsmith settings p)
  = tracing.langsmith_enabled settings
    && Py.str_truthy (default ""%string (tracing.langsmith_api_key settings)).
Proof.
  unfold tracing.is_langsmith_enabled. rewrite setup_langsmith_environ.
  destruct (tracing.langsmith_api_key settings) as [api_key|]; simpl default.
  - destruct (tracing.langsmith_enabled settings && Py.str_truthy api_key).
    + rewrite !lookup_insert_ne by discriminate. rewrite lookup_insert_eq. reflexivity.
    + rewrite lookup_insert_eq. reflexivity.
  - rewrite lookup_insert_eq, andb_false_r. reflexivity.
Qed.

(** X25.  [setup_langsmith] writes to the three [LANGCHAIN_] variables
    and to no other: every other variable of the environment keeps its
    value, or stays unset. *)
Theorem setup_langsmith_frame (settings : tracing.Settings) (p : tracing.Process)
    (key : string) :
  key <> "LANGCHAIN_TRACING_V2"%string ->
  key <> "LANGCHAIN_API_KEY"%string ->
  key <> "LANGCHAIN_PROJECT"%string ->
  tracing.environ (tracing.setup_langsmith settings p) !! key
  = tracing.environ p !! key.
Proof.
  intros Hv2 Hkey Hproject. rewrite setup_langsmith_environ.
  destruct (tracing.langsmith_api_key settings) as [api_key|];
    [destruct (tracing.langsmith_enabled settings && Py.str_truthy api_key)|];
    rewrite !lookup_insert_ne by congruence; reflexivity.
Qed.

(** X26.  Turning tracing off does not take the key back: when the
    settings disable tracing or give no key, the only variable written
    is [LANGCHAIN_TRACING_V2], so a key and a project exported earlier
    stay in the environment. *)
Theorem setup_langsmith_off_keeps_key (settings : tracing.Settings) (p : tracing.Process) :
  tracing.langsmith_enabled settings
    && Py.str_truthy (default ""%string (tracing.langsmith_api_key settings)) = false ->
  tracing.environ (tracing.setup_langsmith settings p)
    = <["LANGCHAIN_TRACING_V2" := "false"%string]> (tracing.environ p)
  /\ tracing.environ (tracing.setup_langsmith settings p) !! "LANGCHAIN_API_KEY"
     = tracing.environ p !! "LANGCHAIN_API_KEY"
  /\ tracing.environ (tracing.setup_langsmith settings p) !! "LANGCHAIN_PROJECT"
     = tracing.environ p !! "LANGCHAIN_PROJECT".
Proof.
  intros Hoff.
  assert (Henv : tracing.environ (tracing.setup_langsmith settings p)
                 = <["LANGCHAIN_TRACING_V2" := "false"%string]> (tracing.environ p)).
  { rewrite setup_langsmith_environ.
    destruct (tracing.langsmith_api_key settings) as [api_key|]; [|reflexivity].
    simpl in Hoff. rewrite Hoff. reflexivity. }
  rewrite Henv. split; [reflexivity|].
  split; rewrite lookup_insert_ne by discriminate; reflexivity.
Qed.

(** X27.  With tracing on and a key, the environment afterwards holds
    that key, the project of the settings and [LANGCHAIN_TRACING_V2 =
    true], whatever was there before. *)
Theorem setup_langsmith_on_exports (settings : tracing.Settings) (p : tracing.Process)
    (api_key : string) :
  tracing.langsmith_enabled settings = true ->
  tracing.langsmith_api_key settings = Some api_key ->
  api_key <> ""%string ->
  let environ := tracing.environ (tracing.setup_langsmith settings p) in
  environ !! "LANGCHAIN_TRACING_V2" = Some "true"%string
  /\ environ !! "LANGCHAIN_API_KEY" = Some api_key
  /\ environ !! "LANGCHAIN_PROJECT" = Some (tracing.langsmith_project settings).
Proof.
  intros Hon Hkey Hne. cbv zeta. rewrite setup_langsmith_environ, Hkey, Hon.
  destruct api_key as [|c k]; [contradiction|]. simpl.
  repeat split.
  - rewrite !lookup_insert_ne by discriminate. apply lookup_insert_eq.
  - rewrite lookup_insert_ne by discriminate. apply lookup_insert_eq.
  - apply lookup_insert_eq.
Qed.

(** X28.  [setup_langsmith] is idempotent on the environment: calling
    it again with the same settings changes no variable. *)
Theorem setup_langsmith_idempotent (settings : tracing.Settings) (p : tracing.Process) :
  tracing.environ (tracing.setup_langsmith settings (tracing.setup_langsmith settings p))
  = tracing.environ (tracing.setup_langsmith settings p).
Proof.
  rewrite (setup_langsmith_environ settings (tracing.setup_langsmith settings p)).
  rewrite (setup_langsmith_environ settings p).
  destruct (tracing.langsmith_api_key settings) as [api_key|];
    [destruct (tracing.langsmith_enabled settings && Py.str_truthy api_key)|];
    apply map_eq; intros key; rewrite !lookup_insert;
    repeat case_decide; reflexivity.
Qed.

(** X29.  Every call prints one status line: the two tests of the
    [else] branch cover it, so no set-up is silent. *)
Theorem setup_langsmith_prints_once (settings : tracing.Settings) (p : tracing.Process) :
  exists line,
    tracing.stdout (tracing.setup_langsmith settings p) = tracing.stdout p ++ [line].
Proof.
  unfold tracing.setup_langsmith, tracing.tracing_off.
  destruct (tracing.langsmith_api_key settings) as [[|c k]|];
    destruct (tracing.langsmith_enabled settings); simpl; eauto.
Qed.

(** ** Worked examples *)

(** The property of section 8 of the spec: an earlier message with the
    tool call [C] and a last message with [A] and [B] give [C; A; B],
    each reduced to its name and arguments. *)
Example chat_with_tools :
  (chat unit Scenario.graph_ok (Scenario.answers (Scenario.result_of Scenario.with_tools))
     Scenario.urandom (ChatRequest.Build "what time is it?" None) (module_init unit)).1
  = Return {| ChatResponse.response := "It is noon.";
              ChatResponse.session_id := Scenario.first_uuid;
              ChatResponse.tool_calls :=
                Some [ {[ "name" := JStr "C"; "args" := JObj ∅ ]};
                       {[ "name" := JStr "A"; "args" := JObj ∅ ]};
                       {[ "name" := JStr "B"; "args" := JObj ∅ ]} ] |}.
Proof. vm_compute. reflexivity. Qed.

(** A failing graph factory: HTTP 500 with the text of the failure. *)
Example chat_graph_down :
  (chat unit Scenario.graph_down (Scenario.answers ∅) Scenario.urandom
     (ChatRequest.Build "hello" (Some "thread-7")) (module_init unit)).1
  = Raise (HTTPException 500 "graph unavailable").
Proof. vm_compute. reflexivity. Qed.

(** C1, at a batch request without a session id and a streaming request
    that supplies ["thread-7"]. *)
Lemma session_resolution_witness :
  let batch :=
    chat unit Scenario.graph_ok (Scenario.answers (Scenario.result_of Scenario.without_tools))
      Scenario.urandom (ChatRequest.Build "hello" None) (module_init unit) in
  let stream :=
    chat_stream unit Scenario.graph_ok Scenario.three_events Scenario.urandom
      "hello" (Some "thread-7") (module_init unit) in
  Scenario.graph_ok None = Return tt
  /\ (forall r, batch.1 = Return r -> ChatResponse.session_id r = Scenario.first_uuid)
  /\ urandom_draws batch.2 = 1%nat
  /\ uuid.str (uuid.uuid4 1) <> Scenario.first_uuid
  /\ last (calls stream.2)
     = Some (StreamAgentResponse tt (make_initial_state "hello" "thread-7")
               (make_config "thread-7"))
  /\ urandom_draws stream.2 = 0%nat.
Proof.
  intros batch stream. split; [reflexivity|].
  destruct (session_resolution unit Scenario.graph_ok
              (Scenario.answers (Scenario.result_of Scenario.without_tools))
              Scenario.three_events Scenario.urandom (ChatRequest.Build "hello" None)
              "hello" (Some "thread-7") (module_init unit) tt eq_refl)
    as (_ & Hdistinct & (sid1 & Hres1 & _ & Hecho & Hdraw1)
        & (sid2 & Hres2 & Hlast2 & Hdraw2 & _)).
  cbv beta iota delta [resolved ChatRequest.session_id] in Hres1, Hres2.
  destruct (decide ("thread-7"%string = ""%string)) as [Hempty|_] in Hres2;
    [discriminate Hempty|].
  subst sid1 sid2.
  split; [exact Hecho|]. split; [exact Hdraw1|].
  split; [|split; [exact Hlast2 | exact Hdraw2]].
  apply (Hdistinct 1 0); [lia | reflexivity | discriminate].
Defined.

(** C1 as first stated fails for the streaming handler: the identifier,
    supplied or drawn, is handed to the graph and to no one else.  With
    an event source of three events the frames are those events, and
    neither ["thread-7"] nor the fresh identifier occurs in them. *)
Lemma session_resolution_counterexample :
  let stream supplied :=
    chat_stream unit Scenario.graph_ok Scenario.three_events Scenario.urandom
      "hello" supplied (module_init unit) in
  (stream (Some "thread-7"%string)).1 = Return tt
  /\ sent (stream (Some "thread-7"%string)).2 = ["e1"; "e2"; "e3"]%string
  /\ returned_in "thread-7" (sent (stream (Some "thread-7"%string)).2) = false
  /\ last (calls (stream None).2)
     = Some (StreamAgentResponse tt (make_initial_state "hello" Scenario.first_uuid)
               (make_config Scenario.first_uuid))
  /\ returned_in Scenario.first_uuid (sent (stream None).2) = false.
Proof.
  intros stream. subst stream. cbv beta.
  split; [vm_compute; reflexivity|]. split; [vm_compute; reflexivity|].
  split; [vm_compute; reflexivity|]. split; vm_compute; reflexivity.
Qed.

(** C3, at a graph that answers with an empty state. *)
Lemma empty_result_server_error_witness :
  let batch :=
    chat unit Scenario.graph_ok (Scenario.answers ∅) Scenario.urandom
      (ChatRequest.Build "hello" None) (module_init unit) in
  default (VMessages []) ((∅ : gmap string state_value) !! "messages") = VMessages []
  /\ (exists detail, batch.1 = Raise (HTTPException 500 detail))
  /\ (forall r, batch.1 <> Return r).
Proof.
  intros batch. split; [reflexivity|].
  apply (empty_result_server_error unit Scenario.graph_ok (Scenario.answers ∅)
           Scenario.urandom (ChatRequest.Build "hello" None) (module_init unit)
           tt Scenario.first_uuid ∅); reflexivity.
Defined.

(** C10, at a graph that answers with an empty list of messages. *)
Lemma empty_result_detail_rendered_witness :
  let batch :=
    chat unit Scenario.graph_ok (Scenario.answers (Scenario.result_of []))
      Scenario.urandom (ChatRequest.Build "hello" (Some "thread-7")) (module_init unit) in
  batch.1 = Raise (HTTPException 500 "500: No response from agent")
  /\ batch.1 <> Raise (HTTPException 500 "No response from agent")
  /\ log batch.2 = ["Error in chat endpoint: 500: No response from agent"%string].
Proof.
  intros batch.
  destruct (empty_result_detail_rendered unit Scenario.graph_ok
              (Scenario.answers (Scenario.result_of [])) Scenario.urandom
              (ChatRequest.Build "hello" (Some "thread-7")) (module_init unit)
              tt "thread-7" (Scenario.result_of []) eq_refl eq_refl eq_refl eq_refl)
    as (Hout & _ & Hnot & Hlog).
  split; [exact Hout|]. split; [exact Hnot | exact Hlog].
Defined.

(** C4, at the three messages of [Scenario.with_tools]. *)
Lemma tool_call_aggregation_witness :
  let batch :=
    chat unit Scenario.graph_ok (Scenario.answers (Scenario.result_of Scenario.with_tools))
      Scenario.urandom (ChatRequest.Build "what time is it?" None) (module_init unit) in
  Scenario.with_tools <> []
  /\ invocations Scenario.with_tools
     = [Scenario.tool "C"; Scenario.tool "A"; Scenario.tool "B"]
  /\ exists r final_message,
      batch.1 = Return r
      /\ last Scenario.with_tools = Some final_message
      /\ ChatResponse.response r = Message.content final_message
      /\ Forall2 reports (invocations Scenario.with_tools) (reported_tool_calls r).
Proof.
  intros batch. split; [discriminate|]. split; [reflexivity|].
  apply (tool_call_aggregation unit Scenario.graph_ok
           (Scenario.answers (Scenario.result_of Scenario.with_tools)) Scenario.urandom
           (ChatRequest.Build "what time is it?" None) (module_init unit)
           tt Scenario.first_uuid (Scenario.result_of Scenario.with_tools)
           Scenario.with_tools);
    [reflexivity | reflexivity | reflexivity | reflexivity | discriminate].
Defined.

(** C5, at the two messages of [Scenario.without_tools]. *)
Lemma tool_calls_omitted_when_none_witness :
  let batch :=
    chat unit Scenario.graph_ok (Scenario.answers (Scenario.result_of Scenario.without_tools))
      Scenario.urandom (ChatRequest.Build "hello" None) (module_init unit) in
  Forall (fun msg => tool_records msg = []) Scenario.without_tools
  /\ exists r,
      batch.1 = Return r
      /\ ChatResponse.tool_calls r = None
      /\ ChatResponse.tool_calls r <> Some [].
Proof.
  intros batch.
  assert (Hnone : Forall (fun msg => tool_records msg = []) Scenario.without_tools)
    by (repeat constructor).
  split; [exact Hnone|].
  apply (tool_calls_omitted_when_none unit Scenario.graph_ok
           (Scenario.answers (Scenario.result_of Scenario.without_tools)) Scenario.urandom
           (ChatRequest.Build "hello" None) (module_init unit)
           tt Scenario.first_uuid (Scenario.result_of Scenario.without_tools)
           Scenario.without_tools);
    [reflexivity | reflexivity | reflexivity | reflexivity | discriminate | exact Hnone].
Defined.

(** C9, at a request whose message is empty. *)
Lemma empty_message_accepted_witness :
  let batch :=
    chat unit Scenario.graph_ok (Scenario.answers (Scenario.result_of Scenario.without_tools))
      Scenario.urandom (ChatRequest.Build "" None) (module_init unit) in
  (forall detail, batch.1 <> Raise (HTTPException 400 detail))
  /\ (forall g, Scenario.graph_ok None = Return g ->
      exists sid,
        last (calls batch.2) = Some (AInvoke g (make_initial_state "" sid) (make_config sid))
        /\ make_initial_state "" sid !! "messages" = Some (VMessages [HumanMessage ""])).
Proof.
  intros batch.
  exact (empty_message_accepted unit Scenario.graph_ok
           (Scenario.answers (Scenario.result_of Scenario.without_tools)) Scenario.urandom
           (ChatRequest.Build "" None) (module_init unit) eq_refl).
Defined.

(** The empty message does reach the graph and is answered. *)
Example chat_empty_message :
  (chat unit Scenario.graph_ok (Scenario.answers (Scenario.result_of Scenario.without_tools))
     Scenario.urandom (ChatRequest.Build "" None) (module_init unit)).1
  = Return {| ChatResponse.response := "Hello!";
              ChatResponse.session_id := Scenario.first_uuid;
              ChatResponse.tool_calls := None |}.
Proof. vm_compute. reflexivity. Qed.

(** C6, at an event source with three events. *)
Lemma stream_order_preserved_witness :
  let stream :=
    chat_stream unit Scenario.graph_ok Scenario.three_events Scenario.urandom
      "hello" (Some "thread-7") (module_init unit) in
  failure_of (Scenario.three_events tt (make_initial_state "hello" "thread-7")
                (make_config "thread-7")) = None
  /\ stream.1 = Return tt
  /\ sent stream.2 = ["e1"; "e2"; "e3"]%string
  /\ log stream.2 = [].
Proof.
  intros stream. split; [reflexivity|].
  exact (stream_order_preserved unit Scenario.graph_ok Scenario.three_events
           Scenario.urandom "hello" (Some "thread-7") (module_init unit) tt "thread-7"
           eq_refl eq_refl eq_refl).
Defined.

(** C2, at an event source that raises after its first event. *)
Lemma stream_failure_single_error_frame_witness :
  let stream :=
    chat_stream unit Scenario.graph_ok Scenario.fails_after_one Scenario.urandom
      "hello" (Some "thread-7") (module_init unit) in
  is_Exception (Exception "boom") = true
  /\ stream.1 = Return tt
  /\ sent stream.2 = ["e1"%string; sse_frame "error" "boom"].
Proof.
  intros stream. split; [reflexivity|].
  exact (stream_failure_single_error_frame unit Scenario.graph_ok Scenario.fails_after_one
           Scenario.urandom "hello" (Some "thread-7") (module_init unit) tt "thread-7"
           (Exception "boom") eq_refl eq_refl eq_refl).
Defined.

(** C2 as first stated fails for an error outside [Exception]: an event
    source cancelled after its first event ends the generator with the
    cancellation, and no error frame is sent. *)
Lemma stream_failure_counterexample :
  let stream :=
    chat_stream unit Scenario.graph_ok Scenario.cancelled_after_one Scenario.urandom
      "hello" (Some "thread-7") (module_init unit) in
  failure_of (Scenario.cancelled_after_one tt (make_initial_state "hello" "thread-7")
                (make_config "thread-7")) = Some (BaseException "cancelled")
  /\ stream.1 = Raise (BaseException "cancelled")
  /\ sent stream.2 = ["e1"%string]
  /\ ~ In (sse_frame "error" "cancelled") (sent stream.2).
Proof.
  intros stream. subst stream.
  split; [reflexivity|]. split; [vm_compute; reflexivity|].
  split; [vm_compute; reflexivity|].
  intros [Hin|[]]. vm_compute in Hin. discriminate Hin.
Qed.

(** A failure before the first event gives the error frame alone. *)
Example stream_fails_at_once :
  sent (chat_stream unit Scenario.graph_ok (fun _ _ _ => Raises (Exception "boom"))
          Scenario.urandom "hello" None (module_init unit)).2
  = [error_frame (Exception "boom")].
Proof. vm_compute. reflexivity. Qed.

(** C8, at the state reached by start-up, one batch request and one
    streaming request: the saver of [app.state] is the PostgreSQL one,
    and both graphs were still built without a saver. *)
Lemma checkpointer_always_none_witness :
  let step := serve unit Scenario.graph_ok
                (Scenario.answers (Scenario.result_of Scenario.without_tools))
                Scenario.three_events Scenario.urandom in
  let w :=
    step (GetChatStream "hello" (Some "thread-7"))
      (step (PostChat (ChatRequest.Build "hello" (Some "thread-7")))
         (lifespan_startup unit "postgresql+asyncpg://u:p@db/app" Scenario.postgres_up
            (module_init unit)).2) in
  app_state_checkpointer w = Some (AsyncPostgresSaver "postgresql://u:p@db/app")
  /\ (get_checkpointer unit w).1 = Return None
  /\ _checkpointer w = None
  /\ Forall without_saver (calls w).
Proof.
  intros step w. split; [vm_compute; reflexivity|].
  apply (checkpointer_always_none unit Scenario.graph_ok
           (Scenario.answers (Scenario.result_of Scenario.without_tools))
           Scenario.three_events Scenario.urandom
           "postgresql+asyncpg://u:p@db/app" Scenario.postgres_up).
  subst w step. repeat constructor.
Defined.

Example calls_after_two_requests :
  let step := serve unit Scenario.graph_ok
                (Scenario.answers (Scenario.result_of Scenario.without_tools))
                Scenario.three_events Scenario.urandom in
  calls (step (GetChatStream "hello" (Some "thread-7"))
           (step (PostChat (ChatRequest.Build "hello" (Some "thread-7")))
              (module_init unit)))
  = [ CreateAgentGraph None;
      AInvoke tt (make_initial_state "hello" "thread-7") (make_config "thread-7");
      CreateAgentGraph None;
      StreamAgentResponse tt (make_initial_state "hello" "thread-7") (make_config "thread-7") ].
Proof. vm_compute. reflexivity. Qed.

(** ** Worked examples: error paths of the batch handler *)

Lemma chat_upstream_failure_witness :
  let batch :=
    chat unit Scenario.graph_ok (Scenario.raises (Exception "model timeout"))
      Scenario.urandom (ChatRequest.Build "hello" (Some "thread-7")) (module_init unit) in
  is_Exception (Exception "model timeout") = true
  /\ batch.1 = Raise (HTTPException 500 "model timeout")
  /\ log batch.2 = ["Error in chat endpoint: model timeout"%string]
  /\ calls batch.2
     = [CreateAgentGraph None;
        AInvoke tt (make_initial_state "hello" "thread-7") (make_config "thread-7")].
Proof.
  intros batch. split; [reflexivity|].
  exact (chat_upstream_failure unit Scenario.graph_ok
           (Scenario.raises (Exception "model timeout")) Scenario.urandom
           (ChatRequest.Build "hello" (Some "thread-7")) (module_init unit)
           tt "thread-7" (Exception "model timeout") eq_refl eq_refl eq_refl eq_refl).
Defined.

Lemma chat_graph_failure_witness :
  let batch :=
    chat unit Scenario.graph_down (Scenario.answers ∅) Scenario.urandom
      (ChatRequest.Build "hello" None) (module_init unit) in
  Scenario.graph_down None = Raise (Exception "graph unavailable")
  /\ batch.1 = Raise (HTTPException 500 "graph unavailable")
  /\ log batch.2 = ["Error in chat endpoint: graph unavailable"%string]
  /\ calls batch.2 = [CreateAgentGraph None]
  /\ urandom_draws batch.2 = O.
Proof.
  intros batch. split; [reflexivity|].
  exact (chat_graph_failure unit Scenario.graph_down (Scenario.answers ∅) Scenario.urandom
           (ChatRequest.Build "hello" None) (module_init unit)
           (Exception "graph unavailable") eq_refl eq_refl).
Defined.

(** A 404 raised inside the graph reaches the caller as a 500. *)
Lemma chat_raises_500_or_429_witness :
  let batch :=
    limited_chat unit Scenario.graph_ok (Scenario.raises (HTTPException 404 "no such tool"))
      Scenario.urandom None (ChatRequest.Build "hello" None) (module_init unit) in
  batch.1 = Raise (HTTPException 500 "404: no such tool")
  /\ exists detail, HTTPException 500 "404: no such tool" = HTTPException 500 detail.
Proof.
  intros batch.
  assert (Hout : batch.1 = Raise (HTTPException 500 "404: no such tool"))
    by (vm_compute; reflexivity).
  split; [exact Hout|].
  exact (chat_raises_500_or_429 unit Scenario.graph_ok
           (Scenario.raises (HTTPException 404 "no such tool")) Scenario.urandom
           None (ChatRequest.Build "hello" None) (module_init unit)
           (HTTPException 500 "404: no such tool") Hout eq_refl).
Defined.

(** A refused call: 429, and the state is as it was. *)
Example chat_refused :
  limited_chat unit Scenario.graph_ok (Scenario.answers ∅) Scenario.urandom
    (Some "100 per 1 minute"%string) (ChatRequest.Build "hello" None) (module_init unit)
  = (Raise (HTTPException 429 "100 per 1 minute"), module_init unit).
Proof. reflexivity. Qed.

Lemma chat_base_exception_propagates_witness :
  let batch :=
    chat unit Scenario.graph_ok (Scenario.raises (BaseException "cancelled"))
      Scenario.urandom (ChatRequest.Build "hello" (Some "thread-7")) (module_init unit) in
  is_Exception (BaseException "cancelled") = false
  /\ batch.1 = Raise (BaseException "cancelled")
  /\ log batch.2 = [].
Proof.
  intros batch. split; [reflexivity|].
  exact (chat_base_exception_propagates unit Scenario.graph_ok
           (Scenario.raises (BaseException "cancelled")) Scenario.urandom
           (ChatRequest.Build "hello" (Some "thread-7")) (module_init unit)
           tt "thread-7" (BaseException "cancelled") eq_refl eq_refl eq_refl eq_refl).
Defined.

(** ** Worked examples: tool calls *)

(** The tool calls of [Scenario.with_tools] carry an ["id"]; the
    records of the response do not. *)
Lemma tool_call_records_keys_witness :
  let record : gmap string json := {[ "name" := JStr "C"; "args" := JObj ∅ ]} in
  Scenario.tool "C" !! "id" = Some (JStr "call_C")
  /\ exists msg tool_calls tool_call,
      In msg Scenario.with_tools
      /\ Message.tool_calls msg = Some tool_calls
      /\ In tool_call tool_calls
      /\ record !! "name" = Some (default JNull (tool_call !! "name"))
      /\ record !! "args" = Some (default JNull (tool_call !! "args"))
      /\ dom record = ({[ "name"; "args" ]} : gset string).
Proof.
  intros record. split; [reflexivity|].
  apply (tool_call_records_keys unit Scenario.graph_ok
           (Scenario.answers (Scenario.result_of Scenario.with_tools)) Scenario.urandom
           (ChatRequest.Build "what time is it?" None) (module_init unit)
           tt Scenario.first_uuid (Scenario.result_of Scenario.with_tools)
           Scenario.with_tools
           {| ChatResponse.response := "It is noon.";
              ChatResponse.session_id := Scenario.first_uuid;
              ChatResponse.tool_calls :=
                Some [ {[ "name" := JStr "C"; "args" := JObj ∅ ]};
                       {[ "name" := JStr "A"; "args" := JObj ∅ ]};
                       {[ "name" := JStr "B"; "args" := JObj ∅ ]} ] |});
    try reflexivity.
  left. reflexivity.
Defined.

Lemma tool_calls_present_when_some_witness :
  let batch :=
    chat unit Scenario.graph_ok (Scenario.answers (Scenario.result_of Scenario.with_tools))
      Scenario.urandom (ChatRequest.Build "what time is it?" None) (module_init unit) in
  Exists (fun msg => tool_records msg <> []) Scenario.with_tools
  /\ exists r records,
      batch.1 = Return r
      /\ ChatResponse.tool_calls r = Some records
      /\ records <> []
      /\ records = concat (map tool_records Scenario.with_tools).
Proof.
  intros batch.
  assert (Hsome : Exists (fun msg => tool_records msg <> []) Scenario.with_tools).
  { apply Exists_cons_tl, Exists_cons_hd. discriminate. }
  split; [exact Hsome|].
  exact (tool_calls_present_when_some unit Scenario.graph_ok
           (Scenario.answers (Scenario.result_of Scenario.with_tools)) Scenario.urandom
           (ChatRequest.Build "what time is it?" None) (module_init unit)
           tt Scenario.first_uuid (Scenario.result_of Scenario.with_tools)
           Scenario.with_tools eq_refl eq_refl eq_refl eq_refl Hsome).
Defined.

Lemma chat_tool_calls_never_empty_witness :
  let r := {| ChatResponse.response := "Hello!";
              ChatResponse.session_id := Scenario.first_uuid;
              ChatResponse.tool_calls := None |} in
  (chat unit Scenario.graph_ok (Scenario.answers (Scenario.result_of Scenario.without_tools))
     Scenario.urandom (ChatRequest.Build "hello" None) (module_init unit)).1 = Return r
  /\ ChatResponse.tool_calls r <> Some [].
Proof.
  intros r.
  assert (Hr : (chat unit Scenario.graph_ok
                  (Scenario.answers (Scenario.result_of Scenario.without_tools))
                  Scenario.urandom (ChatRequest.Build "hello" None) (module_init unit)).1
               = Return r) by (vm_compute; reflexivity).
  split; [exact Hr|].
  exact (chat_tool_calls_never_empty unit Scenario.graph_ok
           (Scenario.answers (Scenario.result_of Scenario.without_tools)) Scenario.urandom
           (ChatRequest.Build "hello" None) (module_init unit) r Hr).
Defined.

(** Three requests, one failing and one refused: two graphs built. *)
Example three_requests_two_graphs :
  graph_builds
    (calls (serve_all_limited unit Scenario.graph_ok
              (Scenario.raises (Exception "model timeout"))
              Scenario.three_events Scenario.urandom
              [ (None, PostChat (ChatRequest.Build "hello" None));
                (Some "100 per 1 minute"%string, GetChatStream "hello" None);
                (None, PostChat (ChatRequest.Build "again" (Some "thread-7"))) ]
              (module_init unit)))
  = 2%nat.
Proof. vm_compute. reflexivity. Qed.

(** ** Worked examples: the streaming handler *)

Lemma stream_never_raises_Exception_witness :
  let stream :=
    chat_stream unit Scenario.graph_ok Scenario.cancelled_after_one Scenario.urandom
      "hello" None (module_init unit) in
  stream.1 = Raise (BaseException "cancelled")
  /\ is_Exception (BaseException "cancelled") = false.
Proof.
  intros stream.
  assert (Hout : stream.1 = Raise (BaseException "cancelled")) by reflexivity.
  split; [exact Hout|].
  exact (stream_never_raises_Exception unit Scenario.graph_ok Scenario.cancelled_after_one
           Scenario.urandom "hello" None (module_init unit)
           (BaseException "cancelled") Hout).
Defined.

Lemma stream_failure_before_source_witness :
  let stream :=
    chat_stream unit Scenario.graph_down Scenario.three_events Scenario.urandom
      "hello" None (module_init unit) in
  Scenario.graph_down None = Raise (Exception "graph unavailable")
  /\ stream.1 = Return tt
  /\ sent stream.2 = [error_frame (Exception "graph unavailable")].
Proof.
  intros stream. split; [reflexivity|].
  exact (stream_failure_before_source unit Scenario.graph_down Scenario.three_events
           Scenario.urandom "hello" None (module_init unit)
           (Exception "graph unavailable") eq_refl eq_refl).
Defined.

Lemma stream_cancelled_delivers_prefix_witness :
  let stream :=
    chat_stream unit Scenario.graph_ok Scenario.cancelled_after_one Scenario.urandom
      "hello" (Some "thread-7") (module_init unit) in
  is_Exception (BaseException "cancelled") = false
  /\ stream.1 = Raise (BaseException "cancelled")
  /\ sent stream.2 = ["e1"%string]
  /\ log stream.2 = [].
Proof.
  intros stream. split; [reflexivity|].
  exact (stream_cancelled_delivers_prefix unit Scenario.graph_ok
           Scenario.cancelled_after_one Scenario.urandom "hello" (Some "thread-7")
           (module_init unit) tt "thread-7" (BaseException "cancelled")
           eq_refl eq_refl eq_refl eq_refl).
Defined.

Lemma stream_frames_extend_events_witness :
  let stream :=
    chat_stream unit Scenario.graph_ok Scenario.fails_after_one Scenario.urandom
      "hello" (Some "thread-7") (module_init unit) in
  let src := Scenario.fails_after_one tt (make_initial_state "hello" "thread-7")
               (make_config "thread-7") in
  Scenario.graph_ok None = Return tt
  /\ exists tail,
      sent stream.2 = events_of src ++ tail
      /\ (tail = [] \/ exists e, failure_of src = Some e /\ tail = [error_frame e]).
Proof.
  intros stream src. split; [reflexivity|].
  exact (stream_frames_extend_events unit Scenario.graph_ok Scenario.fails_after_one
           Scenario.urandom "hello" (Some "thread-7") (module_init unit) tt "thread-7"
           eq_refl eq_refl).
Defined.

Lemma stream_failure_logged_witness :
  let stream :=
    chat_stream unit Scenario.graph_ok Scenario.fails_after_one Scenario.urandom
      "hello" (Some "thread-7") (module_init unit) in
  is_Exception (Exception "boom") = true
  /\ log stream.2 = ["Error in streaming endpoint: boom"%string].
Proof.
  intros stream. split; [reflexivity|].
  exact (stream_failure_logged unit Scenario.graph_ok Scenario.fails_after_one
           Scenario.urandom "hello" (Some "thread-7") (module_init unit) tt "thread-7"
           (Exception "boom") eq_refl eq_refl eq_refl eq_refl).
Defined.

Lemma error_frame_lines_witness :
  Py.char_in "010" (str_exn (Exception "boom")) = false
  /\ Py.split_on "010" (error_frame (Exception "boom"))
     = ["event: error"; "data: boom"; ""; ""]%string.
Proof.
  split; [reflexivity|].
  exact (error_frame_lines (Exception "boom") eq_refl).
Defined.

(** An error text of two lines breaks the frame: its second line is no
    field of the event. *)
Example error_frame_two_lines :
  Py.split_on "010" (error_frame (Exception ("first" +:+ String "010" "second")))
  = ["event: error"; "data: first"; "second"; ""; ""]%string.
Proof. vm_compute. reflexivity. Qed.

(** ** Worked examples: start-up *)

Lemma lifespan_startup_failure_witness :
  let w := module_init unit in
  Scenario.postgres_down "postgresql://u:p@db/app" = Raise (Exception "connection refused")
  /\ lifespan_startup unit "postgresql+asyncpg://u:p@db/app" Scenario.postgres_down w
     = (Raise (Exception "connection refused"), w).
Proof.
  intros w. split; [reflexivity|].
  exact (lifespan_startup_failure unit "postgresql+asyncpg://u:p@db/app"
           Scenario.postgres_down w (Exception "connection refused") eq_refl).
Defined.

Lemma lifespan_strips_driver_witness :
  let w := module_init unit in
  Py.char_in "+" "postgresql" = false
  /\ Py.char_in "+" "://u:p@db/app" = false
  /\ lifespan_startup unit "postgresql+asyncpg://u:p@db/app" Scenario.postgres_up w
     = (Return tt,
        with_app_state_checkpointer
          (Some (AsyncPostgresSaver "postgresql://u:p@db/app")) w).
Proof.
  intros w. split; [reflexivity|]. split; [reflexivity|].
  exact (lifespan_strips_driver unit "postgresql+asyncpg://u:p@db/app"
           Scenario.postgres_up w "postgresql" "://u:p@db/app"
           eq_refl eq_refl eq_refl eq_refl).
Defined.

Lemma lifespan_plain_url_witness :
  let w := module_init unit in
  Py.char_in "+" "postgresql://u:p@db/app" = false
  /\ lifespan_startup unit "postgresql://u:p@db/app" Scenario.postgres_up w
     = (Return tt,
        with_app_state_checkpointer
          (Some (AsyncPostgresSaver "postgresql://u:p@db/app")) w).
Proof.
  intros w. split; [reflexivity|].
  exact (lifespan_plain_url unit "postgresql://u:p@db/app" Scenario.postgres_up w
           eq_refl eq_refl).
Defined.

Lemma database_label_after_credentials_witness :
  Py.char_in "@" "postgresql://u:p" = false
  /\ Py.char_in "@" "db:5432/app" = false
  /\ database_label "postgresql://u:p@db:5432/app" = Return "db:5432/app"%string.
Proof.
  split; [reflexivity|]. split; [reflexivity|].
  exact (database_label_after_credentials "postgresql://u:p" "db:5432/app"
           eq_refl eq_refl).
Defined.

(** With an [@] in the password the label is a piece of the password. *)
Example database_label_at_in_password :
  database_label "postgresql://u:p@ss@db/app" = Return "ss"%string.
Proof. reflexivity. Qed.

(** ** Worked examples: tracing *)

Lemma setup_langsmith_frame_witness :
  tracing.environ (tracing.setup_langsmith Scenario.tracing_on Scenario.exported) !! "PATH"
  = Some "/usr/bin"%string.
Proof.
  exact (setup_langsmith_frame Scenario.tracing_on Scenario.exported "PATH"
           ltac:(discriminate) ltac:(discriminate) ltac:(discriminate)).
Defined.

Lemma setup_langsmith_off_keeps_key_witness :
  let p := tracing.setup_langsmith Scenario.tracing_keyless Scenario.exported in
  tracing.is_langsmith_enabled Scenario.exported = true
  /\ tracing.is_langsmith_enabled p = false
  /\ tracing.environ p !! "LANGCHAIN_API_KEY" = Some "old_key"%string.
Proof.
  intros p. split; [reflexivity|]. split; [reflexivity|].
  exact (proj1 (proj2 (setup_langsmith_off_keeps_key Scenario.tracing_keyless
                         Scenario.exported eq_refl))).
Defined.

Lemma setup_langsmith_on_exports_witness :
  let environ := tracing.environ
                   (tracing.setup_langsmith Scenario.tracing_on Scenario.exported) in
  environ !! "LANGCHAIN_TRACING_V2" = Some "true"%string
  /\ environ !! "LANGCHAIN_API_KEY" = Some "lsv2_key"%string
  /\ environ !! "LANGCHAIN_PROJECT" = Some "starter"%string.
Proof.
  exact (setup_langsmith_on_exports Scenario.tracing_on Scenario.exported "lsv2_key"
           eq_refl eq_refl ltac:(discriminate)).
Defined.
